(** * presently-be: attendance ledger, schedule resolver, audit and statistics

    A shallow embedding of [app/models.py] and [app/api.py].

    - Database tables are lists of rows.  The order of a list is the order
      in which the database yields rows that a query's ORDER BY leaves
      tied; the code does not determine it, and it need not be the order
      of insertion.
    - Foreign keys that the code navigates ([timetable.course.department],
      [timetable.lecture_hall.radius]) are nested records; foreign keys that
      the code only compares ([Attendance.student], [Attendance.course],
      [Attendance.timetable]) are primary keys.
    - Python numbers that come out of a true division or of [float()] are
      exact rationals [Q].  The code only compares them with integer
      literals, with [0.1] and with the integer radius; on counts below
      2^50 these comparisons come out on binary64 values as they do on the
      exact quotients.  NaN and the infinities are outside the model.
    - A [DecimalField(max_digits=9, decimal_places=6)] keeps and shows a
      number rounded to six decimals, half to even; the rounding is done on
      the exact rational.
    - A [TimeField] value is the number of microseconds since midnight.
    - A view returns its response (or the exception that escapes it)
      together with the database it leaves behind. *)

From Stdlib Require Import ZArith QArith Qabs Qround List Bool Lia Lqa String.
From Stdlib Require Import Sorted Permutation.
Import ListNotations.

Local Open Scope Z_scope.

(* ===================================================================== *)
(** ** models.py *)
(* ===================================================================== *)

(** [User.UserType] *)
Inductive UserType := STUDENT | LECTURER | ADMIN.

(** [Attendance.Status] *)
Inductive Status := PRESENT | ABSENT | VOIDED.

Definition UserType_eqb (a b : UserType) : bool :=
  match a, b with
  | STUDENT, STUDENT | LECTURER, LECTURER | ADMIN, ADMIN => true
  | _, _ => false
  end.

Definition Status_eqb (a b : Status) : bool :=
  match a, b with
  | PRESENT, PRESENT | ABSENT, ABSENT | VOIDED, VOIDED => true
  | _, _ => false
  end.

(** Equality of nullable keys, as in [filter(department=user.department)]:
    a NULL on the right-hand side only matches NULL. *)
Definition opt_eqb (a b : option Z) : bool :=
  match a, b with
  | Some x, Some y => x =? y
  | None, None => true
  | _, _ => false
  end.

(** [class User]: the columns the attendance code reads. *)
Record User := mkUser {
  user_pk : Z;
  user_type : UserType;
  user_department : option Z;   (* ForeignKey(Department, null=True) *)
  user_level : option Z;        (* IntegerField(null=True) *)
  user_courses : list Z         (* ManyToManyField(Course) *)
}.

(** [class Course] *)
Record Course := mkCourse {
  course_pk : Z;
  course_department : Z;        (* ForeignKey(Department) *)
  course_level : Z
}.

(** [class LectureHall] *)
Record LectureHall := mkLectureHall {
  hall_pk : Z;
  hall_latitude : Q;
  hall_longitude : Q;
  hall_radius : Z               (* IntegerField(default=100), metres *)
}.

(** [class Timetable]; [Meta.ordering = ['day_of_week', 'start_time']]. *)
Record Timetable := mkTimetable {
  tt_pk : Z;
  tt_course : Course;
  tt_day_of_week : Z;
  tt_start_time : Z;
  tt_end_time : Z;
  tt_lecture_hall : LectureHall;
  tt_active : bool;
  tt_semester : string
}.

(** [class Attendance]; [Meta.unique_together = ('student', 'timetable')]. *)
Record Attendance := mkAttendance {
  att_student : Z;
  att_course : Z;
  att_timetable : option Z;     (* [None] only on unsaved instances *)
  att_timestamp : Z;
  att_latitude : option Q;
  att_longitude : option Q;
  att_status : Status
}.

(** The database: one list of rows per table. *)
Record DB := mkDB {
  db_users : list User;
  db_courses : list Course;
  db_timetables : list Timetable;
  db_attendance : list Attendance
}.

(** The database after the [Attendance] table has been rewritten. *)
Definition with_attendance (db : DB) (rows : list Attendance) : DB :=
  mkDB (db_users db) (db_courses db) (db_timetables db) rows.

(** [QuerySet.count()] *)
Definition count {A : Type} (rows : list A) : Z := Z.of_nat (List.length rows).

(** Python's [a / b * 100] on two counts with [b <> 0]. *)
Definition ratio_times_100 (a b : Z) : Q := (inject_Z a / inject_Z b) * 100.

(** [Timetable.objects.filter(course=course, active=True)] *)
Definition active_timetables_of_course (db : DB) (course : Z) : list Timetable :=
  filter (fun t => (course_pk (tt_course t) =? course) && tt_active t)
         (db_timetables db).

(** [Attendance.objects.filter(student=.., course=.., status=PRESENT)] *)
Definition present_records (db : DB) (student course : Z) : list Attendance :=
  filter (fun a => (att_student a =? student) && (att_course a =? course)
                   && Status_eqb (att_status a) PRESENT)
         (db_attendance db).

(** [Attendance.attendance_percentage] *)
Definition attendance_percentage (db : DB) (self : Attendance) : Q :=
  let total_classes := count (active_timetables_of_course db (att_course self)) in
  let attended_classes :=
    count (present_records db (att_student self) (att_course self)) in
  if total_classes >? 0 then ratio_times_100 attended_classes total_classes
  else 0%Q.

(** The [if/elif] chain of [Attendance.quartile], on the percentage it reads. *)
Definition quartile_of (percentage : Q) : Z :=
  if Qeq_bool percentage 0 then 0
  else if Qle_bool percentage 25 then 1
  else if Qle_bool percentage 50 then 2
  else if Qle_bool percentage 75 then 3
  else if negb (Qle_bool 100 percentage) then 4
  else 5.

(** [Attendance.quartile] *)
Definition quartile (db : DB) (self : Attendance) : Z :=
  quartile_of (attendance_percentage db self).

(* ===================================================================== *)
(** ** api.py: query helpers *)
(* ===================================================================== *)

(** Exceptions that can escape the views below. *)
Inductive Exception :=
| TypeError | ValueError | ZeroDivisionError | IntegrityError
| InvalidOperation | FieldDoesNotExist | AttributeError.

(** What a view hands back: a response, or an exception that escaped it. *)
Inductive Outcome (R : Type) :=
| Returned (r : R)
| Raised (e : Exception).
Arguments Returned {R} r.
Arguments Raised {R} e.

(** [timezone.now()] and [datetime.now()] as read by one request: by the
    view, and once more by [Timetable.is_active_now] when the response is
    serialised. *)
Record Clock := mkClock {
  now_weekday : Z;      (* timezone.now().weekday() *)
  now_time : Z;         (* timezone.now().time() *)
  local_time : Z;       (* datetime.now().time() *)
  now_stamp : Z;        (* value stored by auto_now_add *)
  serial_weekday : Z;   (* timezone.now().weekday(), at serialisation *)
  serial_time : Z       (* timezone.now().time(), at serialisation *)
}.

(** The reading [is_active_now] makes when the response is serialised. *)
Definition at_serialisation (clock : Clock) : Clock :=
  mkClock (serial_weekday clock) (serial_time clock) (local_time clock)
          (now_stamp clock) (serial_weekday clock) (serial_time clock).

(** A value of [request.data.get(key)]: missing or null, numeric (a number
    or a numeric string), a string that is not a number, or an array or
    object. *)
Inductive Datum :=
| Missing
| Num (q : Q)
| NotNumeric
| NotScalar.

(** Python's [float(x)] on such a value. *)
Definition float (x : Datum) : Exception + Q :=
  match x with
  | Missing => inl TypeError
  | Num q => inr q
  | NotNumeric => inl ValueError
  | NotScalar => inl TypeError
  end.

(** The integer nearest to a rational, a tie going to the even neighbour. *)
Definition round_half_even (q : Q) : Z :=
  let n := Qnum q in
  let d := Z.pos (Qden q) in
  let floor := n / d in
  let twice_rest := 2 * (n mod d) in
  if twice_rest <? d then floor
  else if d <? twice_rest then floor + 1
  else if Z.even floor then floor else floor + 1.

(** [quantize(Decimal('0.000001'))] *)
Definition quantize6 (q : Q) : Q :=
  round_half_even (q * 1000000) # 1000000.

(** The number a datum holds, if it holds one. *)
Definition given (x : Datum) : option Q :=
  match x with Num q => Some q | _ => None end.

(** The value a nullable [DecimalField(9, 6)] column keeps of a datum. *)
Definition stored (x : Datum) : option Q :=
  option_map quantize6 (given x).

(** [DecimalField(max_digits=9, decimal_places=6).to_representation]: the
    value quantized to six decimals, or [InvalidOperation] when that takes
    more than nine digits. *)
Definition to_representation (value : option Q) : Exception + option Q :=
  match value with
  | None => inr None
  | Some q =>
    let shown := quantize6 q in
    if Qle_bool 1000 (Qabs shown) then inl InvalidOperation
    else inr (Some shown)
  end.

Definition Qlt_bool (a b : Q) : bool := negb (Qle_bool b a).

(** [Meta.ordering = ['day_of_week', 'start_time']]: the row comparison. *)
Definition ordering_le (a b : Timetable) : bool :=
  (tt_day_of_week a <? tt_day_of_week b)
  || ((tt_day_of_week a =? tt_day_of_week b)
      && (tt_start_time a <=? tt_start_time b)).

Fixpoint insert_ordered (x : Timetable) (l : list Timetable) : list Timetable :=
  match l with
  | [] => [x]
  | y :: l' => if ordering_le x y then x :: y :: l' else y :: insert_ordered x l'
  end.

(** The default ordering of a [Timetable] queryset: the rows sorted by
    (day_of_week, start_time); rows the ordering leaves tied come out as
    the list has them, that is as the database happens to yield them. *)
Fixpoint order_by_meta (l : list Timetable) : list Timetable :=
  match l with
  | [] => []
  | x :: l' => insert_ordered x (order_by_meta l')
  end.

(** [QuerySet.first()] on an ordered queryset. *)
Definition first {A : Type} (rows : list A) : option A := hd_error rows.

(** The keyword arguments of the [Timetable.objects.filter(...)] call that
    [mark_attendance], [student_login] and [CurrentClassView.get] share. *)
Definition is_current (today current_time : Z) (department : option Z)
                      (t : Timetable) : bool :=
  (tt_day_of_week t =? today)
  && (tt_start_time t <=? current_time)
  && (tt_end_time t >=? current_time)
  && opt_eqb (Some (course_department (tt_course t))) department
  && tt_active t.

(** [Timetable.objects.filter(day_of_week=today, start_time__lte=..,
    end_time__gte=.., course__department=.., active=True).first()] *)
Definition current_timetable (db : DB) (today current_time : Z)
                             (department : option Z) : option Timetable :=
  first (order_by_meta
           (filter (is_current today current_time department) (db_timetables db))).

(** [Attendance.objects.filter(student=user, timetable=t)] *)
Definition attendance_of (rows : list Attendance) (student timetable : Z)
  : list Attendance :=
  filter (fun a => (att_student a =? student)
                   && opt_eqb (att_timetable a) (Some timetable)) rows.

(** [QuerySet.exists()] *)
Definition exists_ {A : Type} (rows : list A) : bool :=
  match rows with [] => false | _ :: _ => true end.

(** [Attendance.objects.create(...)]: the insert is refused by the
    [unique_together] index when the pair is already there. *)
Definition Attendance_objects_create (db : DB) (row : Attendance)
  : Exception + (Attendance * DB) :=
  let clash :=
    existsb (fun a => (att_student a =? att_student row)
                      && opt_eqb (att_timetable a) (att_timetable row))
            (db_attendance db) in
  if clash then inl IntegrityError
  else inr (row, with_attendance db (db_attendance db ++ [row])).

(* ===================================================================== *)
(** ** api.py: AttendanceViewSet.mark_attendance *)
(* ===================================================================== *)

(** The five responses of [mark_attendance]; the body of the 201 response
    is stood for by the record it serialises, with its coordinates as the
    column keeps and the serialiser shows them. *)
Inductive MarkResponse :=
| Only_students                                   (* 403 *)
| No_active_class                                 (* 403 *)
| Already_marked                                  (* 400 *)
| Not_in_hall (distance : Q) (allowed_radius : Z) (* 403 *)
| Marked (attendance : Attendance).               (* 201 *)

Notation "'try' x <- e 'leaving' db 'in' k" :=
  (match e with
   | inl exn => (Raised exn, db)
   | inr x => k
   end)
  (at level 10, x pattern, e at level 200, db at level 0, k at level 200).

Section MarkAttendance.

(** [geopy.distance.distance(a, b).m]: the library's distance in metres
    between two (latitude, longitude) pairs, or the exception it raises. *)
Variable geodesic : Q * Q -> Q * Q -> Exception + Q.

Definition mark_attendance (db : DB) (clock : Clock) (user : User)
                           (latitude longitude : Datum)
  : Outcome MarkResponse * DB :=
  if negb (UserType_eqb (user_type user) STUDENT) then
    (Returned Only_students, db)
  else
    let current_time := now_time clock in
    let today := now_weekday clock in
    match current_timetable db today current_time (user_department user) with
    | None => (Returned No_active_class, db)
    | Some current_timetable =>
      let existing_attendance :=
        exists_ (attendance_of (db_attendance db) (user_pk user)
                               (tt_pk current_timetable)) in
      if existing_attendance then (Returned Already_marked, db)
      else
        let lecture_hall := tt_lecture_hall current_timetable in
        let hall_coords := (hall_latitude lecture_hall, hall_longitude lecture_hall) in
        try lat <- float latitude leaving db in
        try lon <- float longitude leaving db in
        let student_coords := (lat, lon) in
        try distance <- geodesic hall_coords student_coords leaving db in
        if Qlt_bool (inject_Z (hall_radius lecture_hall)) distance then
          (Returned (Not_in_hall distance (hall_radius lecture_hall)), db)
        else
          try (attendance, db') <-
            Attendance_objects_create db
              (mkAttendance (user_pk user)
                            (course_pk (tt_course current_timetable))
                            (Some (tt_pk current_timetable))
                            (now_stamp clock)
                            (stored latitude) (stored longitude)
                            PRESENT)
            leaving db in
          (* AttendanceSerializer(attendance).data, on the values as given *)
          try shown_latitude <- to_representation (given latitude) leaving db' in
          try shown_longitude <- to_representation (given longitude) leaving db' in
          (Returned (Marked attendance), db')
    end.

End MarkAttendance.

(* ===================================================================== *)
(** ** api.py: AttendanceViewSet.course_stats *)
(* ===================================================================== *)

(** The concrete fields of [Attendance], the names [Attendance._meta]
    knows.  [attendance_percentage], [quartile] and [feedback_message] are
    properties of the class and not among them. *)
Inductive AttendanceField :=
| Field_id | Field_student | Field_course | Field_timetable
| Field_timestamp | Field_latitude | Field_longitude | Field_status.

Definition Attendance_fields : list (string * AttendanceField) :=
  [ ("id", Field_id);
    ("student", Field_student); ("student_id", Field_student);
    ("course", Field_course); ("course_id", Field_course);
    ("timetable", Field_timetable); ("timetable_id", Field_timetable);
    ("timestamp", Field_timestamp);
    ("latitude", Field_latitude); ("longitude", Field_longitude);
    ("status", Field_status) ]%string.

(** [Attendance._meta.get_field(name)] *)
Definition get_field (name : string) : Exception + AttendanceField :=
  match find (fun entry => String.eqb (fst entry) name) Attendance_fields with
  | Some entry => inr (snd entry)
  | None => inl FieldDoesNotExist
  end.

(** What a field holds on an instance. *)
Inductive FieldValue :=
| Key_value (key : option Z)
| Stamp_value (timestamp : Z)
| Decimal_value (value : option Q)
| Status_value (status : Status).

(** [field.value_from_object(obj)]; an instance that was not saved has no
    [id]. *)
Definition value_from_object (field : AttendanceField) (obj : Attendance)
  : FieldValue :=
  match field with
  | Field_id => Key_value None
  | Field_student => Key_value (Some (att_student obj))
  | Field_course => Key_value (Some (att_course obj))
  | Field_timetable => Key_value (att_timetable obj)
  | Field_timestamp => Stamp_value (att_timestamp obj)
  | Field_latitude => Decimal_value (att_latitude obj)
  | Field_longitude => Decimal_value (att_longitude obj)
  | Field_status => Status_value (att_status obj)
  end.

(** [Attendance(student=user, course=course, timetable=None)], not saved. *)
Definition unsaved (user : User) (course : Course) : Attendance :=
  mkAttendance (user_pk user) (course_pk course) None 0 None None PRESENT.

(** One entry of the lecturer's result list. *)
Record StatsRow := mkStatsRow {
  row_student_id : Z;
  row_attended_classes : Z;
  row_percentage : Q;
  row_quartile : FieldValue;
  row_feedback : FieldValue
}.

(** The responses of [course_stats]. *)
Inductive StatsResponse :=
| Course_id_required                                            (* 400 *)
| Course_not_found                                              (* 404 *)
| Student_stats (total_classes attended_classes : Z) (percentage : Q)
                (quartile feedback : FieldValue)
| Not_teaching                                                  (* 403 *)
| Lecturer_stats (result : list StatsRow)
| No_response.            (* neither branch taken: the view returns None *)

Notation "'attempt' x <- e 'in' k" :=
  (match e with
   | inl exn => inl exn
   | inr x => k
   end)
  (at level 10, x pattern, e at level 200, k at level 200).

(** [Course.objects.get(pk=course_id)] *)
Definition get_course (db : DB) (pk : Z) : option Course :=
  find (fun c => course_pk c =? pk) (db_courses db).

(** [Timetable.objects.filter(course=course)] *)
Definition timetables_of_course (db : DB) (course : Z) : list Timetable :=
  filter (fun t => course_pk (tt_course t) =? course) (db_timetables db).

(** [User.objects.filter(user_type=STUDENT, department=.., level=..)] *)
Definition students_of (users : list User) (department level : Z) : list User :=
  filter (fun u => UserType_eqb (user_type u) STUDENT
                   && opt_eqb (user_department u) (Some department)
                   && opt_eqb (user_level u) (Some level))
         users.

(** Lines 375 to 381: the figures of the student branch. *)
Definition student_figures (db : DB) (user : User) (course : Course)
  : Z * Z * Q :=
  let total_classes := count (timetables_of_course db (course_pk course)) in
  let attended_classes :=
    count (present_records db (user_pk user) (course_pk course)) in
  let percentage :=
    if total_classes >? 0
    then ratio_times_100 attended_classes total_classes else 0%Q in
  (total_classes, attended_classes, percentage).

(** The response dict of the student branch, its entries evaluated in order. *)
Definition student_response (db : DB) (user : User) (course : Course)
  : Exception + StatsResponse :=
  let '(total_classes, attended_classes, percentage) :=
    student_figures db user course in
  attempt quartile_field <- get_field "quartile" in
  let quartile := value_from_object quartile_field (unsaved user course) in
  attempt feedback_field <- get_field "feedback_message" in
  let feedback := value_from_object feedback_field (unsaved user course) in
  inr (Student_stats total_classes attended_classes percentage quartile feedback).

(** The loop of the lecturer branch: one dict per student, appended to
    [result]. *)
Fixpoint lecturer_rows (db : DB) (course : Course) (total_classes : Z)
                       (students : list User) : Exception + list StatsRow :=
  match students with
  | [] => inr []
  | student :: rest =>
    let attended_classes :=
      count (present_records db (user_pk student) (course_pk course)) in
    let percentage :=
      if total_classes >? 0
      then ratio_times_100 attended_classes total_classes else 0%Q in
    attempt quartile_field <- get_field "quartile" in
    let quartile := value_from_object quartile_field (unsaved student course) in
    attempt feedback_field <- get_field "feedback_message" in
    let feedback := value_from_object feedback_field (unsaved student course) in
    attempt result <- lecturer_rows db course total_classes rest in
    inr (mkStatsRow (user_pk student) attended_classes percentage
                    quartile feedback :: result)
  end.

Definition course_stats (db : DB) (user : User) (course_id : option Z)
  : Outcome StatsResponse :=
  match course_id with
  | None => Returned Course_id_required
  | Some course_id =>
    match get_course db course_id with
    | None => Returned Course_not_found
    | Some course =>
      match user_type user with
      | STUDENT =>
        match student_response db user course with
        | inl exn => Raised exn
        | inr response => Returned response
        end
      | LECTURER =>
        if negb (existsb (Z.eqb (course_pk course)) (user_courses user)) then
          Returned Not_teaching
        else
          let students :=
            students_of (db_users db) (course_department course)
                        (course_level course) in
          let total_classes := count (timetables_of_course db (course_pk course)) in
          match lecturer_rows db course total_classes students with
          | inl exn => Raised exn
          | inr result => Returned (Lecturer_stats result)
          end
      | ADMIN => Returned No_response
      end
    end
  end.

(* ===================================================================== *)
(** ** api.py: ValidateAttendanceView.post *)
(* ===================================================================== *)

Definition one_hour : Z := 3600 * 1000000.
Definition one_day : Z := 24 * one_hour.

(** [(datetime.now() - timedelta(hours=1)).time()] *)
Definition one_hour_ago (clock : Clock) : Z :=
  (local_time clock - one_hour) mod one_day.

(** [Timetable.objects.filter(day_of_week=today, end_time__gte=one_hour_ago,
    end_time__lte=current_time, active=True)], in the default ordering. *)
Definition recent_classes (db : DB) (clock : Clock) : list Timetable :=
  order_by_meta
    (filter (fun t => (tt_day_of_week t =? now_weekday clock)
                      && (tt_end_time t >=? one_hour_ago clock)
                      && (tt_end_time t <=? now_time clock)
                      && tt_active t)
            (db_timetables db)).

(** [Attendance.objects.filter(timetable=t)] *)
Definition records_of (rows : list Attendance) (timetable : Z) : list Attendance :=
  filter (fun a => opt_eqb (att_timetable a) (Some timetable)) rows.

Definition set_status (s : Status) (a : Attendance) : Attendance :=
  mkAttendance (att_student a) (att_course a) (att_timetable a)
               (att_timestamp a) (att_latitude a) (att_longitude a) s.

(** [Attendance.objects.filter(timetable=t).update(status=VOIDED)]: every
    row of the timetable is written, and [update] returns the number of rows
    the filter matched. *)
Definition update_voided (rows : list Attendance) (timetable : Z)
  : Z * list Attendance :=
  (count (records_of rows timetable),
   map (fun a => if opt_eqb (att_timetable a) (Some timetable)
                 then set_status VOIDED a else a) rows).

(** Python's [a / b] on two counts. *)
Definition true_div (a b : Z) : Exception + Q :=
  if b =? 0 then inl ZeroDivisionError else inr (inject_Z a / inject_Z b)%Q.

(** The body of [for timetable in recent_classes], threaded over the
    [Attendance] table; each [update] is committed as it is issued. *)
Fixpoint audit_loop (users : list User) (classes : list Timetable)
                    (rows : list Attendance) (voided_count : Z)
  : Outcome Z * list Attendance :=
  match classes with
  | [] => (Returned voided_count, rows)
  | timetable :: rest =>
    let total_students :=
      count (students_of users (course_department (tt_course timetable))
                         (course_level (tt_course timetable))) in
    let marked_attendance := count (records_of rows (tt_pk timetable)) in
    try fraction <- true_div marked_attendance total_students leaving rows in
    if Qlt_bool fraction (1 # 10) then
      let (voided, rows') := update_voided rows (tt_pk timetable) in
      audit_loop users rest rows' (voided_count + voided)
    else audit_loop users rest rows voided_count
  end.

(** The body of the ['Attendance validated'] response. *)
Record AuditResponse := mkAuditResponse {
  voided_count : Z;
  total_classes : Z
}.

Definition post (db : DB) (clock : Clock) : Outcome AuditResponse * DB :=
  let classes := recent_classes db clock in
  match audit_loop (db_users db) classes (db_attendance db) 0 with
  | (Returned voided, rows) =>
      (Returned (mkAuditResponse voided (count classes)), with_attendance db rows)
  | (Raised e, rows) => (Raised e, with_attendance db rows)
  end.

(* ===================================================================== *)
(** ** models.py: Timetable.is_active_now, Attendance.feedback_message *)
(* ===================================================================== *)

(** [Timetable.is_active_now] *)
Definition is_active_now (clock : Clock) (self : Timetable) : bool :=
  let current_time := now_time clock in
  let current_day := now_weekday clock in
  (tt_day_of_week self =? current_day)
  && ((tt_start_time self <=? current_time) && (current_time <=? tt_end_time self))
  && tt_active self.

(** The [messages] dict of [Attendance.feedback_message]. *)
Definition messages : list (Z * string) :=
  [ (0, "Bro you no dey come class?!! Shuu !! 🤦🏽‍♂️");
    (1, "Better dey try come class o!");
    (2, "Why you dey miss class na?");
    (3, "No miss class oh, make you no fail!");
    (4, "Omo, you dey try. Just add small pepper 🫡");
    (5, "Responsible pikin, you know wetin you come do for school! 👏") ]%string.

(** [dict.get(key, default)] *)
Fixpoint dict_get {V : Type} (d : list (Z * V)) (key : Z) (default : V) : V :=
  match d with
  | [] => default
  | (k, v) :: d' => if k =? key then v else dict_get d' key default
  end.

(** [Attendance.feedback_message] *)
Definition feedback_message (db : DB) (self : Attendance) : string :=
  dict_get messages (quartile db self) EmptyString.

(* ===================================================================== *)
(** ** serializers.py: the read-only fields *)
(* ===================================================================== *)



(** [TimetableSerializer(t).data]: the row and its [is_active_now] field,
    which reads the clock again when the response is serialised. *)
Record TimetableData := mkTimetableData {
  data_timetable : Timetable;
  data_is_active_now : bool
}.

Definition TimetableSerializer (clock : Clock) (t : Timetable) : TimetableData :=
  mkTimetableData t (is_active_now (at_serialisation clock) t).

(* ===================================================================== *)
(** ** api.py: the read views of AttendanceViewSet, CurrentClassView *)
(* ===================================================================== *)

Fixpoint insert_newest (x : Attendance) (l : list Attendance) : list Attendance :=
  match l with
  | [] => [x]
  | y :: l' =>
    if att_timestamp y <=? att_timestamp x then x :: y :: l'
    else y :: insert_newest x l'
  end.

(** [Attendance.Meta.ordering = ['-timestamp']]: a stable sort, newest first. *)
Fixpoint newest_first (l : list Attendance) : list Attendance :=
  match l with
  | [] => []
  | x :: l' => insert_newest x (newest_first l')
  end.

(** [AttendanceViewSet.get_queryset] *)
Definition get_queryset (db : DB) (user : User) : list Attendance :=
  match user_type user with
  | STUDENT =>
      newest_first (filter (fun a => att_student a =? user_pk user)
                           (db_attendance db))
  | LECTURER =>
      newest_first (filter (fun a => existsb (Z.eqb (att_course a)) (user_courses user))
                           (db_attendance db))
  | ADMIN => []
  end.



Inductive CurrentClassResponse :=
| Only_students_check                             (* 403 *)
| No_class_found                                  (* 404 *)
| Current_class (data : TimetableData).           (* 200 *)

(** [CurrentClassView.get] *)
Definition CurrentClassView_get (db : DB) (clock : Clock) (user : User)
  : CurrentClassResponse :=
  if negb (UserType_eqb (user_type user) STUDENT) then Only_students_check
  else
    let current_time := now_time clock in
    let today := now_weekday clock in
    match current_timetable db today current_time (user_department user) with
    | None => No_class_found
    | Some current_timetable =>
        Current_class (TimetableSerializer clock current_timetable)
    end.

(* ===================================================================== *)
(** ** api.py: AuthViewSet.student_login *)
(* ===================================================================== *)

(** The JSON stored in [User.last_login_location]. *)
Record LastLogin := mkLastLogin {
  login_latitude : Datum;
  login_longitude : Datum;
  login_timestamp : Z
}.

(** The [last_login_location] column, by user primary key. *)
Definition LoginColumn := Z -> option LastLogin.

Definition save_last_login (column : LoginColumn) (pk : Z) (value : LastLogin)
  : LoginColumn :=
  fun k => if k =? pk then Some value else column k.

(** The responses of [student_login]; the tokens of the 200 response are
    issued by the token library and are not part of it here. *)
Inductive LoginResponse :=
| Invalid_credentials                                   (* 401 *)
| Login_no_active_class                                 (* 403 *)
| Login_not_in_hall (distance : Q) (allowed_radius : Z) (* 403 *)
| Login_successful (user : User) (current_class : TimetableData).

Section StudentLogin.

Variable geodesic : Q * Q -> Q * Q -> Exception + Q.

(** [authenticated] is what [authenticate(request, username=.., password=..)]
    returned. *)
Definition student_login (db : DB) (column : LoginColumn) (clock : Clock)
                         (authenticated : option User)
                         (latitude longitude : Datum)
  : Outcome LoginResponse * LoginColumn :=
  match authenticated with
  | None => (Returned Invalid_credentials, column)
  | Some user =>
    if negb (UserType_eqb (user_type user) STUDENT) then
      (Returned Invalid_credentials, column)
    else
      let current_time := now_time clock in
      let today := now_weekday clock in
      match current_timetable db today current_time (user_department user) with
      | None => (Returned Login_no_active_class, column)
      | Some current_timetable =>
        let lecture_hall := tt_lecture_hall current_timetable in
        let hall_coords := (hall_latitude lecture_hall, hall_longitude lecture_hall) in
        try lat <- float latitude leaving column in
        try lon <- float longitude leaving column in
        let student_coords := (lat, lon) in
        try distance <- geodesic hall_coords student_coords leaving column in
        if Qlt_bool (inject_Z (hall_radius lecture_hall)) distance then
          (Returned (Login_not_in_hall distance (hall_radius lecture_hall)), column)
        else
          (Returned (Login_successful user
                       (TimetableSerializer clock current_timetable)),
           save_last_login column (user_pk user)
                           (mkLastLogin latitude longitude (now_stamp clock)))
      end
  end.

End StudentLogin.

(* ===================================================================== *)
(** ** api.py: AttendanceViewSet.export_attendance *)
(* ===================================================================== *)

(** [Attendance.get_status_display()] *)
Definition get_status_display (s : Status) : string :=
  match s with
  | PRESENT => "Present"
  | ABSENT => "Absent"
  | VOIDED => "Voided"
  end.

(** A value handed to the CSV writer, the worksheet or [drawString]: an
    integer (or its [str()]), a string, or [None]. *)
Inductive Cell :=
| Int_cell (n : Z)
| Str_cell (s : string)
| None_cell.

(** The responses of [export_attendance].  A file is named after the course
    code by its [Content-Disposition] header; a PDF is the list of its
    [drawString(x, y, text)] calls, all on one page. *)
Inductive ExportResponse :=
| Export_course_id_required                            (* 400 *)
| Export_course_not_found                              (* 404 *)
| Export_not_teaching                                  (* 403 *)
| Csv_file (course : Course) (rows : list (list Cell))
| Xlsx_file (course : Course) (rows : list (list Cell))
| Pdf_file (course : Course) (drawn : list (Z * Z * Cell))
| Invalid_format                                       (* 400 *)
| Export_raised (e : Exception).       (* an exception escapes the view *)

(** [enumerate(queryset, start=..)] *)
Fixpoint enumerate {A : Type} (start : Z) (l : list A) : list (Z * A) :=
  match l with
  | [] => []
  | x :: l' => (start, x) :: enumerate (start + 1) l'
  end.

Section ExportAttendance.

(** Columns and renderings the rows are made of: [student.matric_number] and
    [student.get_full_name()] by the student's key, [course.code] and
    [course.title], and [strftime('%Y-%m-%d %H:%M:%S')]. *)
Variable matric_number : Z -> option string.
Variable get_full_name : Z -> string.
Variable course_code : Course -> string.
Variable course_title : Course -> string.
Variable strftime : Z -> string.

Definition matric_cell (student : Z) : Cell :=
  match matric_number student with
  | Some m => Str_cell m
  | None => None_cell
  end.

Definition header_row : list Cell :=
  [Str_cell "S/N"; Str_cell "Matric Number"; Str_cell "Full Name";
   Str_cell "Timestamp"; Str_cell "Status"].

(** The list written for one record by the CSV and worksheet branches. *)
Definition export_row (idx : Z) (attendance : Attendance) : list Cell :=
  [Int_cell idx;
   matric_cell (att_student attendance);
   Str_cell (get_full_name (att_student attendance));
   Str_cell (strftime (att_timestamp attendance));
   Str_cell (get_status_display (att_status attendance))].

(** [p.drawString(x, y, text)]: the canvas cannot draw [None]. *)
Definition drawString (x y : Z) (text : Cell) : Exception + (Z * Z * Cell) :=
  match text with
  | None_cell => inl AttributeError
  | _ => inr (x, y, text)
  end.

(** The PDF loop: [y -= 20], then five [drawString] calls. *)
Fixpoint draw_rows (y : Z) (rows : list (Z * Attendance))
  : Exception + list (Z * Z * Cell) :=
  match rows with
  | [] => inr []
  | (idx, attendance) :: rest =>
    let y := y - 20 in
    attempt number <- drawString 100 y (Int_cell idx) in
    attempt matric <- drawString 150 y (matric_cell (att_student attendance)) in
    attempt name <-
      drawString 300 y (Str_cell (get_full_name (att_student attendance))) in
    attempt time <-
      drawString 450 y (Str_cell (strftime (att_timestamp attendance))) in
    attempt status <-
      drawString 550 y (Str_cell (get_status_display (att_status attendance))) in
    attempt below <- draw_rows y rest in
    inr (number :: matric :: name :: time :: status :: below)
  end.

Definition export_attendance (db : DB) (clock : Clock) (user : User)
                             (course_id : option Z) (format : option string)
  : ExportResponse :=
  let format := match format with Some f => f | None => "csv"%string end in
  match course_id with
  | None => Export_course_id_required
  | Some course_id =>
    match get_course db course_id with
    | None => Export_course_not_found
    | Some course =>
      let of_course :=
        filter (fun a => att_course a =? course_pk course) (db_attendance db) in
      let selection :=
        match user_type user with
        | STUDENT =>
            Some (filter (fun a => (att_student a =? user_pk user)
                                   && (att_course a =? course_pk course))
                         (db_attendance db))
        | LECTURER =>
            if negb (existsb (Z.eqb (course_pk course)) (user_courses user))
            then None else Some of_course
        | ADMIN => Some of_course
        end in
      match selection with
      | None => Export_not_teaching
      | Some rows =>
        let queryset := newest_first rows in
        if String.eqb format "csv" then
          Csv_file course
            (header_row :: map (fun '(idx, a) => export_row idx a)
                               (enumerate 1 queryset))
        else if String.eqb format "xlsx" then
          Xlsx_file course
            (header_row :: map (fun '(idx, a) => export_row idx a)
                               (enumerate 1 queryset))
        else if String.eqb format "pdf" then
          let y := 750 in
          match draw_rows y (enumerate 1 queryset) with
          | inl exn => Export_raised exn
          | inr below =>
            Pdf_file course
              ([(100, 800, Str_cell ("Attendance Report for " ++ course_code course
                                     ++ " - " ++ course_title course));
                (100, 780, Str_cell ("Generated on: " ++ strftime (now_stamp clock)));
                (100, y, Str_cell "S/N");
                (150, y, Str_cell "Matric Number");
                (300, y, Str_cell "Full Name");
                (450, y, Str_cell "Timestamp");
                (550, y, Str_cell "Status")]
               ++ below)
          end
        else Invalid_format
      end
    end
  end.

End ExportAttendance.

(* ===================================================================== *)
(** ** models.py: UserManager *)
(* ===================================================================== *)

(** The values keyword arguments carry. *)
Inductive PyValue :=
| PyNone
| PyBool (b : bool)
| PyInt (n : Z)
| PyStr (s : string).

(** [**extra_fields]: a dict with string keys, in insertion order. *)
Definition Kwargs := list (string * PyValue).

(** [d.get(key)] *)
Fixpoint kw_get (d : Kwargs) (key : string) : option PyValue :=
  match d with
  | [] => None
  | (k, v) :: d' => if String.eqb k key then Some v else kw_get d' key
  end.

(** [d.setdefault(key, value)] *)
Definition kw_setdefault (d : Kwargs) (key : string) (value : PyValue) : Kwargs :=
  match kw_get d key with
  | Some _ => d
  | None => d ++ [(key, value)]
  end.

(** [x is not True] *)
Definition is_not_True (x : option PyValue) : bool :=
  match x with
  | Some (PyBool true) => false
  | _ => true
  end.

(** [not username] *)
Definition falsy (username : option string) : bool :=
  match username with
  | None => true
  | Some s => String.eqb s ""
  end.

(** [User.UserType.ADMIN] *)
Definition UserType_ADMIN : PyValue := PyInt 3.

Section UserManager.

(** The store the manager saves into and the instance it returns. *)
Variables (Store Instance : Type).

(** [BaseUserManager.normalize_email]. *)
Variable normalize_email : option string -> string.

(** [self.model(username=.., email=.., **extra_fields)], [set_password] and
    [save()]: the framework's part of [create_user]. *)
Variable model_set_password_save :
  option string -> string -> option string -> Kwargs -> Store
  -> (Exception + Instance) * Store.

(** [UserManager.create_user] *)
Definition create_user (username email password : option string)
                       (extra_fields : Kwargs) (store : Store)
  : (Exception + Instance) * Store :=
  if falsy username then (inl ValueError, store)
  else
    match kw_get extra_fields "user_type" with
    | None => (inl ValueError, store)
    | Some _ =>
      let email := normalize_email email in
      model_set_password_save username email password extra_fields store
    end.

(** [UserManager.create_superuser] *)
Definition create_superuser (username email password : option string)
                            (extra_fields : Kwargs) (store : Store)
  : (Exception + Instance) * Store :=
  let extra_fields := kw_setdefault extra_fields "is_staff" (PyBool true) in
  let extra_fields := kw_setdefault extra_fields "is_superuser" (PyBool true) in
  let extra_fields := kw_setdefault extra_fields "is_active" (PyBool true) in
  let extra_fields := kw_setdefault extra_fields "user_type" UserType_ADMIN in
  if is_not_True (kw_get extra_fields "is_staff") then (inl ValueError, store)
  else if is_not_True (kw_get extra_fields "is_superuser") then
    (inl ValueError, store)
  else create_user username email password extra_fields store.

End UserManager.

(* ===================================================================== *)
(** ** Specification-side definitions *)
(* ===================================================================== *)

(** A timetable row is a candidate for "the class in session" for a
    department at a weekday and time of day. *)
Definition in_session (today current_time : Z) (department : option Z)
                      (t : Timetable) : Prop :=
  tt_active t = true
  /\ tt_day_of_week t = today
  /\ tt_start_time t <= current_time <= tt_end_time t
  /\ department = Some (course_department (tt_course t)).

(** [a] comes no later than [b] in the (day-of-week, start-time) order. *)
Definition no_later (a b : Timetable) : Prop :=
  tt_day_of_week a < tt_day_of_week b
  \/ (tt_day_of_week a = tt_day_of_week b /\ tt_start_time a <= tt_start_time b).

(** Number of Present records of a person for a course. *)
Fixpoint present_count (rows : list Attendance) (person course : Z) : nat :=
  match rows with
  | [] => 0%nat
  | a :: rows' =>
    match att_status a with
    | PRESENT =>
      if Z.eq_dec (att_student a) person then
        if Z.eq_dec (att_course a) course
        then S (present_count rows' person course)
        else present_count rows' person course
      else present_count rows' person course
    | _ => present_count rows' person course
    end
  end.

(** Number of schedule entries of a course. *)
Fixpoint entry_count (entries : list Timetable) (course : Z) : nat :=
  match entries with
  | [] => 0%nat
  | t :: entries' =>
    if Z.eq_dec (course_pk (tt_course t)) course
    then S (entry_count entries' course)
    else entry_count entries' course
  end.

(** Present-count / total schedule entries x 100, and 0 without entries. *)
Definition spec_percentage (db : DB) (person course : Z) : Q :=
  match entry_count (db_timetables db) course with
  | O => 0%Q
  | S n => (inject_Z (Z.of_nat (present_count (db_attendance db) person course))
            / inject_Z (Z.of_nat (S n)) * 100)%Q
  end.

(** A number that, rounded to six decimals, takes at most nine digits. *)
Definition fits_nine_digits (q : Q) : Prop :=
  (Qabs (quantize6 q) < 1000)%Q.

(** A datum the [DecimalField(9, 6)] of the response can show. *)
Definition fits (x : Datum) : Prop :=
  match given x with
  | Some q => fits_nine_digits q
  | None => True
  end.

(** The record a mark creates for the class [entry]. *)
Definition marked_row (clock : Clock) (user : User) (entry : Timetable)
                      (latitude longitude : Datum) : Attendance :=
  mkAttendance (user_pk user) (course_pk (tt_course entry)) (Some (tt_pk entry))
               (now_stamp clock) (stored latitude) (stored longitude) PRESENT.

(** [Meta.unique_together = ('student', 'timetable')] as a table invariant. *)
Definition unique_together (rows : list Attendance) : Prop :=
  NoDup (map (fun a => (att_student a, att_timetable a)) rows).


(** Every record's timetable is a row of the timetable table, and the
    record's course is that row's course. *)
Definition refers_to_timetable (db : DB) : Prop :=
  forall a, In a (db_attendance db) ->
    exists t, In t (db_timetables db)
              /\ att_timetable a = Some (tt_pk t)
              /\ att_course a = course_pk (tt_course t).

(** The expected cohort of a class: the students of its course's department
    and level. *)
Definition cohort_size (users : list User) (t : Timetable) : Z :=
  count (students_of users (course_department (tt_course t))
                     (course_level (tt_course t))).

(** What the audit's query selects at a clock reading: the enabled rows of
    today's weekday whose end time is no earlier than the server's local
    wall-clock time taken one hour back (a time of day, hence modulo a day)
    and no later than the current time. *)
Definition audited (clock : Clock) (t : Timetable) : bool :=
  (tt_day_of_week t =? now_weekday clock)
  && ((local_time clock - one_hour) mod one_day <=? tt_end_time t)
  && (tt_end_time t <=? now_time clock)
  && tt_active t.

(** Fewer than one in ten of the cohort have a record for the class. *)
Definition thinly_attended (users : list User) (rows : list Attendance)
                           (t : Timetable) : bool :=
  Qlt_bool (inject_Z (count (records_of rows (tt_pk t)))
            / inject_Z (cohort_size users t)) (1 # 10).

(** The table after the records of the given timetables have been voided. *)
Definition void_in (timetables : list Z) (rows : list Attendance)
  : list Attendance :=
  map (fun a => if existsb (fun k => opt_eqb (att_timetable a) (Some k)) timetables
                then set_status VOIDED a else a) rows.

(** A record is as it was, or as it was with its status set to Voided. *)
Definition same_or_voided (before after : Attendance) : Prop :=
  after = before \/ after = set_status VOIDED before.

(** [a] is listed before [b] under [ordering = ['-timestamp']]. *)
Definition not_older (a b : Attendance) : Prop :=
  att_timestamp b <= att_timestamp a.

(** The records of a course a user may export: a student's own, all of
    them for a lecturer of the course and for an administrator, none for a
    lecturer who does not teach it. *)
Definition may_export (user : User) (course : Course) (a : Attendance) : Prop :=
  att_course a = course_pk course
  /\ match user_type user with
     | STUDENT => att_student a = user_pk user
     | LECTURER => In (course_pk course) (user_courses user)
     | ADMIN => True
     end.

(** Sum of a list of counts. *)
Definition total (counts : list Z) : Z := fold_right Z.add 0 counts.

(* ===================================================================== *)
(** ** Sample data *)
(* ===================================================================== *)

(** Longitudes are taken modulo 360, into [-180, 180). *)
Definition wrap_longitude (x : Q) : Q :=
  x - 360 * inject_Z (Qfloor ((x + 180) / 360)).

(** A stand-in for the distance library, on which the model is run at
    concrete requests.  It is not the geodesic distance; like it, it is 0
    between identical points, never negative, blind to whole turns of
    longitude, and defined for latitudes between -90 and 90 only. *)
Definition flat_metres (a b : Q * Q) : Exception + Q :=
  if Qlt_bool 90 (Qabs (fst a)) || Qlt_bool 90 (Qabs (fst b)) then inl ValueError
  else inr (111195 * (Qabs (fst a - fst b)
                      + Qabs (wrap_longitude (snd a - snd b))))%Q.

Definition hours (h : Z) : Z := h * one_hour.

Definition csc201 : Course := mkCourse 1 1 200.

Definition hall (radius : Z) : LectureHall :=
  mkLectureHall 1 (65244 # 10000) (33792 # 10000) radius.

(** Monday 08:00-10:00 in a hall of the given radius. *)
Definition monday_class (radius : Z) : Timetable :=
  mkTimetable 1 csc201 0 (hours 8) (hours 10) (hall radius) true "2024/2025".

(** A second, disabled slot of the same course on Wednesday. *)
Definition wednesday_class_disabled : Timetable :=
  mkTimetable 2 csc201 2 (hours 8) (hours 10) (hall 100) false "2024/2025".

Definition ada : User := mkUser 7 STUDENT (Some 1) (Some 200) [].

Definition ada_present : Attendance :=
  mkAttendance 7 1 (Some 1) 900 (Some (65244 # 10000)) (Some (33792 # 10000))
               PRESENT.

(** Monday 09:00 and Monday 10:30. *)
Definition monday_0900 : Clock :=
  mkClock 0 (hours 9) (hours 9) 1000 0 (hours 9).
Definition monday_1030 : Clock :=
  mkClock 0 (hours 10 + 1800000000) (hours 10 + 1800000000) 2000
          0 (hours 10 + 1800000000).

Definition at_the_hall : Datum * Datum :=
  (Num (65244 # 10000), Num (33792 # 10000)).


Definition ten_turns_east : Datum * Datum :=
  (Num (65244 # 10000), Num (36033792 # 10000)).

(** The record a successful mark at the hall on Monday 09:00 creates. *)
Definition ada_marks_now : Attendance :=
  mkAttendance 7 1 (Some 1) 1000 (stored (fst at_the_hall))
               (stored (snd at_the_hall)) PRESENT.

(** The ledger before and after Ada's first mark. *)
Definition db_open (radius : Z) : DB :=
  mkDB [ada] [csc201] [monday_class radius] [].
Definition db_marked : DB :=
  mkDB [ada] [csc201] [monday_class 100] [ada_present].

(** A class whose cohort is empty. *)
Definition db_no_cohort : DB :=
  mkDB [] [csc201] [monday_class 100] [].

(** A cohort of eleven students of which one has marked. *)
Definition cohort : list User :=
  map (fun i => mkUser i STUDENT (Some 1) (Some 200) [])
      [7; 8; 9; 10; 11; 12; 13; 14; 15; 16; 17].
Definition db_thin : DB :=
  mkDB cohort [csc201] [monday_class 100] [ada_present].

(** Two overlapping Monday slots; the later one was inserted first. *)
Definition late_class : Timetable :=
  mkTimetable 3 csc201 0 (hours 8 + 1800000000) (hours 10) (hall 100) true
              "2024/2025".
Definition db_overlap : DB :=
  mkDB [ada] [csc201] [late_class; monday_class 100] [].

(** Stand-ins for the columns and renderings the export reads. *)
Definition no_matric (student : Z) : option string := None.
Definition matric_of (student : Z) : option string := Some "CSC/2021/007"%string.
Definition anonymous (student : Z) : string := "A. Student".
Definition code_of (course : Course) : string := "CSC201".
Definition title_of (course : Course) : string := "Data Structures".
Definition unformatted (timestamp : Z) : string := "2024-01-01 09:00:00".


(** The lecturer of the course. *)
Definition grace : User := mkUser 2 LECTURER (Some 1) None [1].

(** A cohort of ten of which one has marked: exactly one in ten. *)
Definition db_tenth : DB :=
  mkDB (firstn 10 cohort) [csc201] [monday_class 100] [ada_present].

(** Two Present records, one of them for a slot that was disabled since. *)
Definition db_disabled_since : DB :=
  mkDB [ada] [csc201] [wednesday_class_disabled; monday_class 100]
       [ada_present; mkAttendance 7 1 (Some 2) 950 None None PRESENT].

(** One enabled and one disabled slot, one Present record. *)
Definition db_two_slots : DB :=
  mkDB [ada] [csc201] [monday_class 100; wednesday_class_disabled] [ada_present].

(* ===================================================================== *)
(** ** Rational comparisons *)
(* ===================================================================== *)

Lemma Qle_bool_false (a b : Q) : Qle_bool a b = false <-> (b < a)%Q.
Proof.
  split; intro H.
  - apply Qnot_le_lt. intro Hle. apply Qle_bool_iff in Hle. congruence.
  - destruct (Qle_bool a b) eqn:E; [| reflexivity].
    apply Qle_bool_iff in E. exfalso. exact (Qlt_not_le _ _ H E).
Qed.

Lemma Qlt_bool_iff (a b : Q) : Qlt_bool a b = true <-> (a < b)%Q.
Proof.
  unfold Qlt_bool. rewrite negb_true_iff. apply Qle_bool_false.
Qed.

Lemma Qlt_bool_false (a b : Q) : Qlt_bool a b = false <-> (b <= a)%Q.
Proof.
  unfold Qlt_bool. rewrite negb_false_iff. apply Qle_bool_iff.
Qed.

Lemma Qeq_bool_false (a b : Q) : Qeq_bool a b = false <-> ~ (a == b)%Q.
Proof.
  split; intro H.
  - intro E. apply Qeq_bool_iff in E. congruence.
  - destruct (Qeq_bool a b) eqn:E; [| reflexivity].
    apply Qeq_bool_iff in E. contradiction.
Qed.

(* ===================================================================== *)
(** ** Statistics: the quartile buckets *)
(* ===================================================================== *)

(** The quartile of 0 is 0 whether or not the comparison sees it as [0#1]. *)
Lemma quartile_of_zero (p : Q) : (p == 0)%Q -> quartile_of p = 0.
Proof.
  intro H. unfold quartile_of.
  apply Qeq_bool_iff in H. rewrite H. reflexivity.
Qed.

Lemma quartile_of_positive (p : Q) :
  (0 < p)%Q ->
  quartile_of p =
    if Qle_bool p 25 then 1
    else if Qle_bool p 50 then 2
    else if Qle_bool p 75 then 3
    else if negb (Qle_bool 100 p) then 4 else 5.
Proof.
  intro H. unfold quartile_of.
  destruct (Qeq_bool p 0) eqn:E; [| reflexivity].
  apply Qeq_bool_iff in E. rewrite E in H. discriminate.
Qed.

(** C3. For every percentage p >= 0 the quartile is 0 when p = 0, 1 when
    0 < p <= 25, 2 when 25 < p <= 50, 3 when 50 < p <= 75, 4 when
    75 < p < 100 and 5 when p = 100. *)
Theorem quartile_of_buckets (p : Q) :
  (0 <= p)%Q ->
  ((p == 0)%Q -> quartile_of p = 0)
  /\ ((0 < p)%Q -> (p <= 25)%Q -> quartile_of p = 1)
  /\ ((25 < p)%Q -> (p <= 50)%Q -> quartile_of p = 2)
  /\ ((50 < p)%Q -> (p <= 75)%Q -> quartile_of p = 3)
  /\ ((75 < p)%Q -> (p < 100)%Q -> quartile_of p = 4)
  /\ ((p == 100)%Q -> quartile_of p = 5).
Proof.
  intros _. split; [exact (quartile_of_zero p) |].
  assert (pos : forall c : Q, (0 <= c)%Q -> (c < p)%Q -> (0 < p)%Q)
    by (intros c Hc Hp; eapply Qle_lt_trans; eassumption).
  repeat split.
  - intros H0 H1. rewrite quartile_of_positive by assumption.
    apply Qle_bool_iff in H1. rewrite H1. reflexivity.
  - intros H0 H1. rewrite quartile_of_positive by (apply (pos 25%Q); [discriminate | assumption]).
    apply Qle_bool_false in H0. rewrite H0.
    apply Qle_bool_iff in H1. rewrite H1. reflexivity.
  - intros H0 H1. rewrite quartile_of_positive by (apply (pos 50%Q); [discriminate | assumption]).
    assert (A : Qle_bool p 25 = false)
      by (apply Qle_bool_false; eapply Qlt_trans; [| exact H0]; reflexivity).
    apply Qle_bool_false in H0. apply Qle_bool_iff in H1.
    rewrite A, H0, H1. reflexivity.
  - intros H0 H1. rewrite quartile_of_positive by (apply (pos 75%Q); [discriminate | assumption]).
    assert (A : Qle_bool p 25 = false)
      by (apply Qle_bool_false; eapply Qlt_trans; [| exact H0]; reflexivity).
    assert (B : Qle_bool p 50 = false)
      by (apply Qle_bool_false; eapply Qlt_trans; [| exact H0]; reflexivity).
    apply Qle_bool_false in H0. apply Qle_bool_false in H1.
    rewrite A, B, H0, H1. reflexivity.
  - intros H. assert (P : (0 < p)%Q) by (rewrite H; reflexivity).
    rewrite quartile_of_positive by assumption.
    assert (A : Qle_bool p 25 = false) by (apply Qle_bool_false; rewrite H; reflexivity).
    assert (B : Qle_bool p 50 = false) by (apply Qle_bool_false; rewrite H; reflexivity).
    assert (C : Qle_bool p 75 = false) by (apply Qle_bool_false; rewrite H; reflexivity).
    assert (D : Qle_bool 100 p = true) by (apply Qle_bool_iff; rewrite H; apply Qle_refl).
    rewrite A, B, C, D. reflexivity.
Qed.

Lemma quartile_of_buckets_witness :
  quartile_of 0 = 0
  /\ quartile_of 25 = 1
  /\ quartile_of (2501 # 100) = 2
  /\ quartile_of 50 = 2
  /\ quartile_of 75 = 3
  /\ quartile_of (9999 # 100) = 4
  /\ quartile_of 100 = 5.
Proof.
  assert (nonneg : forall n d, (0 <= Z.pos n # d)%Q)
    by (intros n d; unfold Qle; simpl; lia).
  destruct (quartile_of_buckets 0 (Qle_refl 0)) as (at_0 & _).
  destruct (quartile_of_buckets 25 (nonneg _ _)) as (_ & at_25 & _).
  destruct (quartile_of_buckets (2501 # 100) (nonneg _ _)) as (_ & _ & at_25_01 & _).
  destruct (quartile_of_buckets 50 (nonneg _ _)) as (_ & _ & at_50 & _).
  destruct (quartile_of_buckets 75 (nonneg _ _)) as (_ & _ & _ & at_75 & _).
  destruct (quartile_of_buckets (9999 # 100) (nonneg _ _)) as (_ & _ & _ & _ & at_99_99 & _).
  destruct (quartile_of_buckets 100 (nonneg _ _)) as (_ & _ & _ & _ & _ & at_100).
  split; [apply at_0; reflexivity |].
  split; [apply at_25; [reflexivity | unfold Qle; simpl; lia] |].
  split; [apply at_25_01; [reflexivity | unfold Qle; simpl; lia] |].
  split; [apply at_50; [reflexivity | unfold Qle; simpl; lia] |].
  split; [apply at_75; [reflexivity | unfold Qle; simpl; lia] |].
  split; [apply at_99_99; reflexivity |].
  apply at_100; reflexivity.
Defined.

(* ===================================================================== *)
(** ** Schedule resolver *)
(* ===================================================================== *)

Lemma ordering_le_no_later (a b : Timetable) :
  ordering_le a b = true <-> no_later a b.
Proof.
  unfold ordering_le, no_later.
  rewrite orb_true_iff, andb_true_iff, Z.ltb_lt, Z.eqb_eq, Z.leb_le.
  reflexivity.
Qed.

Lemma ordering_le_refl (a : Timetable) : ordering_le a a = true.
Proof. apply ordering_le_no_later. right. split; [reflexivity | apply Z.le_refl]. Qed.

Lemma ordering_le_total (a b : Timetable) :
  ordering_le a b = false -> ordering_le b a = true.
Proof.
  intro H. apply ordering_le_no_later.
  assert (N : ~ no_later a b)
    by (intro C; apply ordering_le_no_later in C; congruence).
  unfold no_later in *. lia.
Qed.

Lemma ordering_le_trans (a b c : Timetable) :
  ordering_le a b = true -> ordering_le b c = true -> ordering_le a c = true.
Proof.
  rewrite !ordering_le_no_later. unfold no_later. lia.
Qed.

Lemma in_insert_ordered (x y : Timetable) (l : list Timetable) :
  In y (insert_ordered x l) <-> y = x \/ In y l.
Proof.
  induction l as [| z l IH]; simpl.
  - intuition congruence.
  - destruct (ordering_le x z); simpl; [intuition congruence |].
    rewrite IH. intuition congruence.
Qed.

Lemma in_order_by_meta (y : Timetable) (l : list Timetable) :
  In y (order_by_meta l) <-> In y l.
Proof.
  induction l as [| x l IH]; simpl; [reflexivity |].
  rewrite in_insert_ordered, IH. intuition congruence.
Qed.

(** The row a default-ordered queryset starts with comes no later than any
    other row of it. *)
Lemma first_order_by_meta_least (l : list Timetable) (h : Timetable) :
  first (order_by_meta l) = Some h ->
  forall y, In y l -> ordering_le h y = true.
Proof.
  revert h. induction l as [| x l IH]; intros h Hh y Hy; [destruct Hy |].
  simpl in Hh.
  destruct (order_by_meta l) as [| h' t'] eqn:E.
  - simpl in Hh. injection Hh as <-.
    destruct Hy as [<- | Hy]; [apply ordering_le_refl |].
    apply in_order_by_meta in Hy. rewrite E in Hy. destruct Hy.
  - assert (L : forall z, In z l -> ordering_le h' z = true)
      by (apply IH; reflexivity).
    simpl in Hh. destruct (ordering_le x h') eqn:C; simpl in Hh; injection Hh as <-.
    + destruct Hy as [<- | Hy]; [apply ordering_le_refl |].
      eapply ordering_le_trans; [exact C | apply L; exact Hy].
    + destruct Hy as [<- | Hy]; [apply ordering_le_total; exact C | apply L; exact Hy].
Qed.

Lemma first_order_by_meta_none (l : list Timetable) :
  first (order_by_meta l) = None -> l = [].
Proof.
  destruct l as [| x l]; [reflexivity |]. intro H. exfalso.
  assert (I : In x (order_by_meta (x :: l)))
    by (apply in_order_by_meta; left; reflexivity).
  destruct (order_by_meta (x :: l)); [destruct I | discriminate].
Qed.

Lemma first_in {A : Type} (l : list A) (h : A) : first l = Some h -> In h l.
Proof.
  destruct l; simpl; [discriminate |]. intro H. injection H as <-. left. reflexivity.
Qed.

Lemma is_current_in_session today current_time department t :
  is_current today current_time department t = true
  <-> in_session today current_time department t.
Proof.
  unfold is_current, in_session.
  rewrite !andb_true_iff, Z.eqb_eq, Z.leb_le, Z.geb_le.
  destruct department as [d |]; simpl.
  - rewrite Z.eqb_eq. intuition congruence.
  - intuition congruence.
Qed.

(** C8. The resolved entry is a table row that is enabled, on the
    timestamp's weekday, whose window (bounds included) contains the time of
    day and whose course is of the department, and it comes first in the
    (day-of-week, start-time) order among all such rows; when no row
    qualifies the result is [None], not an error. *)
Theorem current_timetable_first_in_session
  (db : DB) (today current_time : Z) (department : option Z) :
  match current_timetable db today current_time department with
  | Some entry =>
      In entry (db_timetables db)
      /\ in_session today current_time department entry
      /\ forall other, In other (db_timetables db) ->
           in_session today current_time department other ->
           no_later entry other
  | None =>
      forall other, In other (db_timetables db) ->
        ~ in_session today current_time department other
  end.
Proof.
  unfold current_timetable.
  destruct (first (order_by_meta
              (filter (is_current today current_time department) (db_timetables db))))
    as [entry |] eqn:E.
  - assert (I : In entry (filter (is_current today current_time department)
                                 (db_timetables db)))
      by (apply in_order_by_meta, first_in; exact E).
    apply filter_In in I. destruct I as [I C].
    split; [exact I |]. split; [apply is_current_in_session; exact C |].
    intros other Io Co. apply ordering_le_no_later.
    apply (first_order_by_meta_least _ _ E).
    apply filter_In. split; [exact Io | apply is_current_in_session; exact Co].
  - apply first_order_by_meta_none in E.
    intros other Io Co.
    assert (I : In other (filter (is_current today current_time department)
                                 (db_timetables db)))
      by (apply filter_In; split; [exact Io | apply is_current_in_session; exact Co]).
    rewrite E in I. destruct I.
Qed.

(** At 10:00, the closing bound of both overlapping slots, the resolver
    picks the one that starts first although it was inserted last. *)
Lemma current_timetable_first_in_session_witness :
  current_timetable db_overlap 0 (hours 10) (Some 1) = Some (monday_class 100)
  /\ in_session 0 (hours 10) (Some 1) (monday_class 100)
  /\ no_later (monday_class 100) late_class.
Proof.
  pose proof (current_timetable_first_in_session db_overlap 0 (hours 10) (Some 1))
    as H.
  assert (E : current_timetable db_overlap 0 (hours 10) (Some 1)
              = Some (monday_class 100)) by reflexivity.
  rewrite E in H. destruct H as (_ & S & L).
  split; [exact E |]. split; [exact S |].
  apply L.
  - left. reflexivity.
  - repeat split; (reflexivity || (vm_compute; discriminate)).
Defined.

(* ===================================================================== *)
(** ** Attendance ledger: mark_attendance *)
(* ===================================================================== *)

Lemma opt_eqb_eq (a b : option Z) : opt_eqb a b = true <-> a = b.
Proof.
  destruct a, b; simpl; try rewrite Z.eqb_eq; intuition congruence.
Qed.

Lemma exists_filter {A : Type} (f : A -> bool) (l : list A) :
  exists_ (filter f l) = existsb f l.
Proof.
  induction l as [| x l IH]; simpl; [reflexivity |].
  destruct (f x); simpl; [reflexivity | exact IH].
Qed.

(** [exists()] on the duplicate check answers whether the pair is recorded. *)
Lemma existing_attendance_iff (rows : list Attendance) (student timetable : Z) :
  exists_ (attendance_of rows student timetable) = true
  <-> exists a, In a rows /\ att_student a = student
                /\ att_timetable a = Some timetable.
Proof.
  unfold attendance_of. rewrite exists_filter, existsb_exists.
  split; intros (a & I & H); exists a; (split; [exact I |]).
  - apply andb_true_iff in H. destruct H as [H1 H2].
    apply Z.eqb_eq in H1. apply opt_eqb_eq in H2. split; assumption.
  - destruct H as [H1 H2]. apply andb_true_iff.
    split; [apply Z.eqb_eq | apply opt_eqb_eq]; assumption.
Qed.

(** The unique index and the duplicate check look at the same pair. *)
Lemma create_refused_iff (db : DB) (row : Attendance) (timetable : Z) :
  att_timetable row = Some timetable ->
  (Attendance_objects_create db row = inl IntegrityError
   <-> exists_ (attendance_of (db_attendance db) (att_student row) timetable) = true).
Proof.
  intro T. unfold Attendance_objects_create, attendance_of.
  rewrite exists_filter, T.
  destruct (existsb _ (db_attendance db)); split; congruence.
Qed.

Lemma create_accepted (db : DB) (row : Attendance) (timetable : Z) :
  att_timetable row = Some timetable ->
  exists_ (attendance_of (db_attendance db) (att_student row) timetable) = false ->
  Attendance_objects_create db row
  = inr (row, with_attendance db (db_attendance db ++ [row])).
Proof.
  intros T E. unfold Attendance_objects_create.
  unfold attendance_of in E. rewrite exists_filter in E.
  rewrite T, E. reflexivity.
Qed.

Lemma to_representation_error (value : option Q) (e : Exception) :
  to_representation value = inl e -> e = InvalidOperation.
Proof.
  unfold to_representation.
  destruct value as [q |]; cbv zeta; [| discriminate].
  destruct (Qle_bool _ _); [| discriminate]. intro H. injection H as <-. reflexivity.
Qed.

Lemma to_representation_fits (x : Datum) :
  (exists shown, to_representation (given x) = inr shown) <-> fits x.
Proof.
  unfold fits, fits_nine_digits, to_representation.
  destruct (given x) as [q |]; cbv zeta.
  - destruct (Qle_bool 1000 (Qabs (quantize6 q))) eqn:B.
    + apply Qle_bool_iff in B. split.
      * intros (shown & H). discriminate H.
      * intro L. exfalso. exact (Qlt_not_le _ _ L B).
    + apply Qle_bool_false in B. split; [intros _; exact B |].
      intros _. eexists. reflexivity.
  - split; [intros _; exact I | intros _; eexists; reflexivity].
Qed.

Section MarkAttendanceFacts.

Variable geodesic : Q * Q -> Q * Q -> Exception + Q.
Variables (db : DB) (clock : Clock) (user : User) (entry : Timetable).

Hypothesis is_student : user_type user = STUDENT.
Hypothesis in_class :
  current_timetable db (now_weekday clock) (now_time clock) (user_department user)
  = Some entry.

(** A repeat attempt stops at the duplicate check. *)
Lemma mark_attendance_repeat (latitude longitude : Datum) :
  exists_ (attendance_of (db_attendance db) (user_pk user) (tt_pk entry)) = true ->
  mark_attendance geodesic db clock user latitude longitude
  = (Returned Already_marked, db).
Proof.
  intro E. unfold mark_attendance.
  rewrite is_student, in_class, E. reflexivity.
Qed.



End MarkAttendanceFacts.

(** Whatever the request, the call leaves the database as it was or with
    one record more: the one for the caller and the class in session, which
    was not there before. *)
Lemma mark_attendance_effect geodesic db clock user latitude longitude :
  snd (mark_attendance geodesic db clock user latitude longitude) = db
  \/ exists entry,
       current_timetable db (now_weekday clock) (now_time clock)
                         (user_department user) = Some entry
       /\ exists_ (attendance_of (db_attendance db) (user_pk user) (tt_pk entry))
          = false
       /\ snd (mark_attendance geodesic db clock user latitude longitude)
          = with_attendance db
              (db_attendance db
               ++ [marked_row clock user entry latitude longitude]).
Proof.
  unfold mark_attendance.
  destruct (UserType_eqb (user_type user) STUDENT); simpl negb; cbv iota;
    [| left; reflexivity].
  destruct (current_timetable _ _ _ _) as [entry |]; [| left; reflexivity].
  destruct (exists_ _) eqn:E; [left; reflexivity |].
  destruct (float latitude) as [? | lat]; [left; reflexivity |].
  destruct (float longitude) as [? | lon]; [left; reflexivity |].
  destruct (geodesic _ _) as [? | d]; [left; reflexivity |].
  destruct (Qlt_bool _ d); [left; reflexivity |].
  rewrite (create_accepted db _ (tt_pk entry)); [| reflexivity | exact E].
  right. exists entry. split; [reflexivity |]. split; [exact E |].
  destruct (to_representation (given latitude));
    [| destruct (to_representation (given longitude))]; reflexivity.
Qed.

(** No call of [mark_attendance] breaks [unique_together]. *)
Lemma mark_attendance_keeps_unique geodesic db clock user latitude longitude :
  unique_together (db_attendance db) ->
  unique_together
    (db_attendance (snd (mark_attendance geodesic db clock user latitude longitude))).
Proof.
  intro U.
  destruct (mark_attendance_effect geodesic db clock user latitude longitude)
    as [-> | (entry & _ & E & ->)]; [exact U |].
  simpl. unfold unique_together in *. rewrite map_app. simpl.
  apply NoDup_rev in U. rewrite <- rev_involutive. apply NoDup_rev.
  rewrite rev_app_distr. simpl. constructor; [| exact U].
  rewrite <- in_rev, in_map_iff. intros (a & P & I).
  injection P as P1 P2.
  assert (X : exists_ (attendance_of (db_attendance db) (user_pk user)
                                     (tt_pk entry)) = true).
  { apply existing_attendance_iff. exists a. repeat split; congruence. }
  congruence.
Qed.

(** C4. When a record already exists for the person and the entry that is
    in session, a further mark attempt by that student answers "already
    marked" and leaves the database as it was; the unique index on
    (student, timetable) would refuse the insert as well. *)
Theorem repeat_mark_is_refused
  geodesic db clock user entry latitude longitude :
  user_type user = STUDENT ->
  current_timetable db (now_weekday clock) (now_time clock) (user_department user)
  = Some entry ->
  (exists a, In a (db_attendance db) /\ att_student a = user_pk user
             /\ att_timetable a = Some (tt_pk entry)) ->
  mark_attendance geodesic db clock user latitude longitude
  = (Returned Already_marked, db)
  /\ forall row, att_student row = user_pk user ->
       att_timetable row = Some (tt_pk entry) ->
       Attendance_objects_create db row = inl IntegrityError.
Proof.
  intros S C X. apply existing_attendance_iff in X. split.
  - apply (mark_attendance_repeat geodesic db clock user entry S C); exact X.
  - intros row R T. apply (create_refused_iff db row (tt_pk entry) T).
    rewrite R. exact X.
Qed.

Lemma repeat_mark_is_refused_witness :
  mark_attendance flat_metres db_marked monday_0900 ada
                  (fst at_the_hall) (snd at_the_hall)
  = (Returned Already_marked, db_marked)
  /\ Attendance_objects_create db_marked ada_present = inl IntegrityError.
Proof.
  destruct (repeat_mark_is_refused flat_metres db_marked monday_0900 ada
              (monday_class 100) (fst at_the_hall) (snd at_the_hall))
    as [refused index].
  - reflexivity.
  - reflexivity.
  - exists ada_present. split; [left; reflexivity | split; reflexivity].
  - split; [exact refused | apply index; reflexivity].
Defined.

(** C9. The duplicate check comes before the geofence check: for a student
    who already has a record for the entry in session, every repeat attempt
    answers "already marked" whatever the coordinates supplied, never "not
    in the hall", and the answer does not depend on the distance function,
    which is not consulted. *)
Theorem duplicate_check_precedes_geofence db clock user entry :
  user_type user = STUDENT ->
  current_timetable db (now_weekday clock) (now_time clock) (user_department user)
  = Some entry ->
  exists_ (attendance_of (db_attendance db) (user_pk user) (tt_pk entry)) = true ->
  forall geodesic latitude longitude,
    mark_attendance geodesic db clock user latitude longitude
    = (Returned Already_marked, db)
    /\ (forall d r,
          fst (mark_attendance geodesic db clock user latitude longitude)
          <> Returned (Not_in_hall d r))
    /\ mark_attendance geodesic db clock user latitude longitude
       = mark_attendance (fun _ _ => inl ValueError) db clock user Missing NotNumeric.
Proof.
  intros S C E geodesic latitude longitude.
  rewrite !(mark_attendance_repeat _ db clock user entry S C) by exact E.
  repeat split. simpl. discriminate.
Qed.

Lemma duplicate_check_precedes_geofence_witness :
  mark_attendance flat_metres db_marked monday_0900 ada (Num 0) (Num 200)
  = (Returned Already_marked, db_marked)
  /\ mark_attendance flat_metres db_marked monday_0900 ada (Num 0) (Num 200)
     = mark_attendance (fun _ _ => inl ValueError) db_marked monday_0900 ada
                       Missing NotNumeric.
Proof.
  destruct (duplicate_check_precedes_geofence db_marked monday_0900 ada
              (monday_class 100) eq_refl eq_refl eq_refl
              flat_metres (Num 0) (Num 200))
    as (refused & _ & unmeasured).
  split; [exact refused | exact unmeasured].
Defined.







(* ===================================================================== *)
(** ** Session auditor *)
(* ===================================================================== *)

Lemma records_of_update_voided (rows : list Attendance) (timetable other : Z) :
  records_of (snd (update_voided rows timetable)) other
  = map (fun a => if opt_eqb (att_timetable a) (Some timetable)
                  then set_status VOIDED a else a)
        (records_of rows other).
Proof.
  unfold update_voided, records_of. simpl.
  induction rows as [| a rows IH]; simpl; [reflexivity |].
  destruct (opt_eqb (att_timetable a) (Some timetable)) eqn:T; simpl;
    destruct (opt_eqb (att_timetable a) (Some other)) eqn:O; simpl;
    rewrite ?T, IH; reflexivity.
Qed.

(** Voiding changes no record's timetable, so every count the audit takes
    is the same after it. *)
Lemma count_records_of_update_voided (rows : list Attendance) (timetable other : Z) :
  count (records_of (snd (update_voided rows timetable)) other)
  = count (records_of rows other).
Proof.
  rewrite records_of_update_voided. unfold count. rewrite length_map. reflexivity.
Qed.

Lemma update_voided_again (rows : list Attendance) (timetable : Z) :
  snd (update_voided (snd (update_voided rows timetable)) timetable)
  = snd (update_voided rows timetable).
Proof.
  unfold update_voided. simpl. rewrite map_map.
  apply map_ext. intro a.
  destruct (opt_eqb (att_timetable a) (Some timetable)) eqn:T; simpl; rewrite T;
    reflexivity.
Qed.

(** C2 as stated fails: on a timetable with one Present record the update
    reports 1 and, run again at once, reports 1 again; so does the whole
    audit run twice on a thinly attended class. *)
Lemma revoiding_is_counted_again :
  fst (update_voided [ada_present] 1) = 1
  /\ fst (update_voided (snd (update_voided [ada_present] 1)) 1) = 1
  /\ fst (post db_thin monday_1030) = Returned (mkAuditResponse 1 1)
  /\ fst (post (snd (post db_thin monday_1030)) monday_1030)
     = Returned (mkAuditResponse 1 1).
Proof. repeat split. Qed.

(** C2, amended. Voiding is idempotent in its effect, not in its count: a
    second update right after a first leaves every record as the first left
    it, with all records of the entry Voided, and reports the same number as
    the first, which is the number of records of the entry whatever their
    status. *)
Theorem voiding_twice (rows : list Attendance) (timetable : Z) :
  let once := update_voided rows timetable in
  let twice := update_voided (snd once) timetable in
  snd twice = snd once
  /\ fst twice = fst once
  /\ fst once = count (records_of rows timetable)
  /\ Forall (fun a => att_status a = VOIDED) (records_of (snd once) timetable)
  /\ forall other, other <> timetable ->
       records_of (snd once) other = records_of rows other.
Proof.
  intros once twice. split; [apply update_voided_again |].
  split; [apply count_records_of_update_voided |].
  split; [reflexivity |]. split.
  - unfold once. rewrite records_of_update_voided.
    apply Forall_forall. intros a I. apply in_map_iff in I.
    destruct I as (b & <- & I). apply filter_In in I. destruct I as [_ T].
    rewrite T. reflexivity.
  - intros other N. unfold once. rewrite records_of_update_voided.
    rewrite <- (map_id (records_of rows other)) at 2.
    apply map_ext_in. intros a I. apply filter_In in I. destruct I as [_ O].
    destruct (opt_eqb (att_timetable a) (Some timetable)) eqn:T; [| reflexivity].
    apply opt_eqb_eq in O. apply opt_eqb_eq in T. congruence.
Qed.

Lemma voiding_twice_witness :
  snd (update_voided (snd (update_voided [ada_present] 1)) 1)
  = snd (update_voided [ada_present] 1)
  /\ fst (update_voided (snd (update_voided [ada_present] 1)) 1) = 1
  /\ records_of (snd (update_voided [ada_present] 1)) 2 = records_of [ada_present] 2.
Proof.
  destruct (voiding_twice [ada_present] 1) as (same & again & _ & _ & others).
  split; [exact same |]. split; [rewrite again; reflexivity |].
  apply others. discriminate.
Defined.

(** Once a class of the batch has no student in its cohort, the loop ends
    in the division. *)
Lemma audit_loop_empty_cohort (users : list User) (classes : list Timetable)
      (timetable : Timetable) :
  In timetable classes ->
  students_of users (course_department (tt_course timetable))
                    (course_level (tt_course timetable)) = [] ->
  forall rows voided,
    fst (audit_loop users classes rows voided) = Raised ZeroDivisionError.
Proof.
  intros I Z0. induction classes as [| c classes IH]; [destruct I |].
  intros rows voided. simpl.
  unfold true_div.
  destruct (count (students_of users _ _) =? 0) eqn:C; [reflexivity |].
  destruct I as [-> | I]; [rewrite Z0 in C; discriminate |].
  destruct (Qlt_bool _ _); apply IH; exact I.
Qed.

(** C1 fails on the code. Whenever a class that ended within the last hour
    has no student of its course's department and level, the audit does
    divide by the cohort size: the request ends in [ZeroDivisionError]
    instead of skipping the class and answering. *)
Theorem audit_divides_by_empty_cohort (db : DB) (clock : Clock)
        (timetable : Timetable) :
  In timetable (recent_classes db clock) ->
  students_of (db_users db) (course_department (tt_course timetable))
                            (course_level (tt_course timetable)) = [] ->
  fst (post db clock) = Raised ZeroDivisionError.
Proof.
  intros I Z0. unfold post.
  pose proof (audit_loop_empty_cohort (db_users db) (recent_classes db clock)
                timetable I Z0 (db_attendance db) 0) as R.
  destruct (audit_loop _ _ _ _) as [[v | e] rows]; simpl in *; congruence.
Qed.

Lemma audit_divides_by_empty_cohort_witness :
  post db_no_cohort monday_1030 = (Raised ZeroDivisionError, db_no_cohort)
  /\ fst (post db_no_cohort monday_1030) = Raised ZeroDivisionError.
Proof.
  split; [reflexivity |].
  apply (audit_divides_by_empty_cohort db_no_cohort monday_1030 (monday_class 100)).
  - left. reflexivity.
  - reflexivity.
Defined.

(* ===================================================================== *)
(** ** Statistics: the percentage *)
(* ===================================================================== *)

Lemma count_present_records (db : DB) (person course : Z) :
  count (present_records db person course)
  = Z.of_nat (present_count (db_attendance db) person course).
Proof.
  unfold count, present_records. f_equal.
  induction (db_attendance db) as [| a rows IH]; simpl; [reflexivity |].
  destruct (att_status a); simpl;
    destruct (Z.eq_dec (att_student a) person) as [S | S];
    try destruct (Z.eq_dec (att_course a) course) as [C | C];
    try (apply Z.eqb_eq in S); try (apply Z.eqb_neq in S);
    try (apply Z.eqb_eq in C); try (apply Z.eqb_neq in C);
    rewrite ?S, ?C; simpl; rewrite ?andb_false_r; simpl; congruence.
Qed.

Lemma count_timetables_of_course (db : DB) (course : Z) :
  count (timetables_of_course db course)
  = Z.of_nat (entry_count (db_timetables db) course).
Proof.
  unfold count, timetables_of_course. f_equal.
  induction (db_timetables db) as [| t entries IH]; simpl; [reflexivity |].
  destruct (Z.eq_dec (course_pk (tt_course t)) course) as [C | C].
  - apply Z.eqb_eq in C. rewrite C. simpl. congruence.
  - apply Z.eqb_neq in C. rewrite C. exact IH.
Qed.

Lemma get_course_pk (db : DB) (pk : Z) (course : Course) :
  get_course db pk = Some course -> course_pk course = pk.
Proof.
  unfold get_course. intro H. apply find_some in H.
  destruct H as [_ H]. apply Z.eqb_eq. exact H.
Qed.

Lemma get_field_quartile : get_field "quartile" = inl FieldDoesNotExist.
Proof. reflexivity. Qed.

(** The student branch never gets past the ['quartile'] entry of its
    response. *)
Lemma student_response_raises (db : DB) (user : User) (course : Course) :
  student_response db user course = inl FieldDoesNotExist.
Proof.
  unfold student_response. destruct (student_figures db user course) as [[? ?] ?].
  rewrite get_field_quartile. reflexivity.
Qed.

(** C6 fails on the code. The student branch of [course_stats] does compute
    the percentage as the number of the student's Present records for the
    course divided by the number of the course's timetable rows, times 100,
    and 0 when the course has no timetable row; but it returns nothing: for
    every student and every course that exists the request ends in
    [FieldDoesNotExist].  The percentage a student is served instead, the
    model's [attendance_percentage], divides by the enabled rows only and
    is a different number on a course with a disabled slot. *)
Theorem student_percentage_is_computed_not_returned
  (db : DB) (user : User) (course_id : Z) (course : Course) :
  user_type user = STUDENT ->
  get_course db course_id = Some course ->
  course_stats db user (Some course_id) = Raised FieldDoesNotExist
  /\ (exists percentage,
        student_figures db user course
        = (Z.of_nat (entry_count (db_timetables db) course_id),
           Z.of_nat (present_count (db_attendance db) (user_pk user) course_id),
           percentage)
        /\ (percentage == spec_percentage db (user_pk user) course_id)%Q
        /\ (entry_count (db_timetables db) course_id = 0%nat -> percentage = 0%Q))
  /\ ~ (attendance_percentage db_two_slots (unsaved ada csc201)
        == spec_percentage db_two_slots (user_pk ada) (course_pk csc201))%Q.
Proof.
  intros S G. split; [| split].
  - unfold course_stats. rewrite G, S, student_response_raises. reflexivity.
  - unfold student_figures.
    rewrite (get_course_pk db course_id course G).
    rewrite count_present_records, count_timetables_of_course.
    eexists. split; [reflexivity |].
    unfold spec_percentage.
    destruct (entry_count (db_timetables db) course_id) as [| n]; simpl.
    + split; [reflexivity | reflexivity].
    + split; [reflexivity | discriminate].
  - vm_compute. discriminate.
Qed.

Lemma student_percentage_is_computed_not_returned_witness :
  course_stats db_two_slots ada (Some 1) = Raised FieldDoesNotExist
  /\ exists percentage,
       student_figures db_two_slots ada csc201 = (2, 1, percentage)
       /\ (percentage == 50)%Q.
Proof.
  destruct (student_percentage_is_computed_not_returned db_two_slots ada 1 csc201
              eq_refl eq_refl) as (raised & (percentage & F & P & _) & _).
  split; [exact raised |].
  exists percentage. split; [exact F |].
  rewrite P. reflexivity.
Defined.

(** The two percentages read the same three tables and differ only in the
    [active=True] filter, so they agree whenever no timetable row of the
    course is disabled. *)
Lemma percentages_agree_when_all_enabled (db : DB) (user : User) (course : Course) :
  (forall t, In t (db_timetables db) ->
     course_pk (tt_course t) = course_pk course -> tt_active t = true) ->
  snd (student_figures db user course)
  = attendance_percentage db (unsaved user course).
Proof.
  intros A. unfold student_figures, attendance_percentage, unsaved. simpl.
  replace (active_timetables_of_course db (course_pk course))
    with (timetables_of_course db (course_pk course)); [reflexivity |].
  unfold active_timetables_of_course, timetables_of_course.
  apply filter_ext_in. intros t I.
  destruct (course_pk (tt_course t) =? course_pk course) eqn:C; [| reflexivity].
  apply Z.eqb_eq in C. rewrite (A t I C). reflexivity.
Qed.

(** C10 fails on the code. With one enabled and one disabled timetable row
    and one Present record, [attendance_percentage] is 100 (quartile 5)
    while the percentage [course_stats] computes is 50, whose quartile
    would be 2; that request then ends in [FieldDoesNotExist]. *)
Theorem percentages_disagree_on_disabled_slot :
  (attendance_percentage db_two_slots (unsaved ada csc201) == 100)%Q
  /\ quartile db_two_slots (unsaved ada csc201) = 5
  /\ (exists percentage,
        student_figures db_two_slots ada csc201 = (2, 1, percentage)
        /\ (percentage == 50)%Q
        /\ quartile_of percentage = 2
        /\ ~ (attendance_percentage db_two_slots (unsaved ada csc201)
              == percentage)%Q)
  /\ course_stats db_two_slots ada (Some (course_pk csc201))
     = Raised FieldDoesNotExist.
Proof.
  split; [reflexivity |]. split; [reflexivity |]. split; [| reflexivity].
  eexists. split; [reflexivity |]. split; [reflexivity |].
  split; [reflexivity |]. discriminate.
Qed.

(* ===================================================================== *)
(** ** Statistics: quartile and feedback over the whole range *)
(* ===================================================================== *)

Ltac bool_to_order :=
  repeat match goal with
  | H : Qeq_bool _ _ = true |- _ => apply Qeq_bool_iff in H
  | H : Qeq_bool _ _ = false |- _ => apply Qeq_bool_false in H
  | H : Qle_bool _ _ = true |- _ => apply Qle_bool_iff in H
  | H : Qle_bool _ _ = false |- _ => apply Qle_bool_false in H
  end.

Ltac quartile_cases p :=
  unfold quartile_of;
  destruct (Qeq_bool p 0) eqn:?; [|
  destruct (Qle_bool p 25) eqn:?; [|
  destruct (Qle_bool p 50) eqn:?; [|
  destruct (Qle_bool p 75) eqn:?; [|
  destruct (Qle_bool 100 p) eqn:? ]]]]; simpl negb; cbv iota.

Lemma quartile_of_range (p : Q) : 0 <= quartile_of p <= 5.
Proof. quartile_cases p; lia. Qed.

Lemma quartile_of_is_zero (p : Q) : quartile_of p = 0 <-> (p == 0)%Q.
Proof.
  split; [| apply quartile_of_zero].
  quartile_cases p; bool_to_order; intro H; try discriminate H; assumption.
Qed.

Lemma quartile_of_is_five (p : Q) : quartile_of p = 5 <-> (100 <= p)%Q.
Proof.
  split.
  - quartile_cases p; bool_to_order; intro H; try discriminate H; assumption.
  - intro H. quartile_cases p; bool_to_order; try reflexivity; exfalso; lra.
Qed.

Lemma ratio_times_100_sign (a b : Z) :
  0 <= a -> 0 < b ->
  (0 <= ratio_times_100 a b)%Q /\ ((ratio_times_100 a b == 0)%Q <-> a = 0).
Proof.
  intros A B. unfold ratio_times_100.
  destruct b as [| b | b]; try lia.
  unfold Qle, Qeq, Qdiv, Qmult, Qinv, inject_Z. simpl. split; [lia |].
  split; lia.
Qed.

Lemma ratio_times_100_vs_100 (a b : Z) :
  0 < b -> ((100 <= ratio_times_100 a b)%Q <-> b <= a).
Proof.
  intros B. unfold ratio_times_100.
  destruct b as [| b | b]; try lia.
  unfold Qle, Qdiv, Qmult, Qinv, inject_Z. simpl. split; lia.
Qed.

Lemma count_nonneg {A : Type} (rows : list A) : 0 <= count rows.
Proof. unfold count. lia. Qed.

Lemma count_zero {A : Type} (rows : list A) : count rows = 0 <-> rows = [].
Proof.
  unfold count. destruct rows; simpl; split; intro H;
    try reflexivity; try discriminate H; lia.
Qed.

(** The percentage of the model property is never negative; it may exceed
    100 when more Present records exist than enabled slots. *)
Lemma attendance_percentage_nonneg (db : DB) (self : Attendance) :
  (0 <= attendance_percentage db self)%Q.
Proof.
  unfold attendance_percentage.
  destruct (_ >? 0) eqn:T; [| apply Qle_refl].
  apply Z.gtb_lt in T.
  apply ratio_times_100_sign; [apply count_nonneg | exact T].
Qed.

(** X1. Whatever the database and the record, the quartile is one of the
    six keys of the [messages] dict, so [feedback_message] is the message
    stored under that key and never the empty default. *)
Theorem feedback_message_never_default (db : DB) (self : Attendance) :
  0 <= quartile db self <= 5
  /\ In (quartile db self, feedback_message db self) messages
  /\ feedback_message db self <> EmptyString.
Proof.
  unfold feedback_message, quartile.
  generalize (attendance_percentage db self). intro p.
  split; [apply quartile_of_range |].
  quartile_cases p; (split; [simpl; tauto | discriminate]).
Qed.

(** X2. On percentages that are not negative the quartile grows with the
    percentage. *)
Theorem quartile_of_monotone (p q : Q) :
  (0 <= p)%Q -> (p <= q)%Q -> quartile_of p <= quartile_of q.
Proof.
  intros P L.
  unfold quartile_of.
  destruct (Qeq_bool p 0) eqn:?; [apply quartile_of_range |].
  destruct (Qeq_bool q 0) eqn:?; [bool_to_order; exfalso; lra |].
  destruct (Qle_bool p 25) eqn:?, (Qle_bool q 25) eqn:?;
  destruct (Qle_bool p 50) eqn:?, (Qle_bool q 50) eqn:?;
  destruct (Qle_bool p 75) eqn:?, (Qle_bool q 75) eqn:?;
  destruct (Qle_bool 100 p) eqn:?, (Qle_bool 100 q) eqn:?;
  simpl negb; cbv iota; try lia; bool_to_order; exfalso; lra.
Qed.

Lemma quartile_of_monotone_witness :
  quartile_of (2501 # 100) <= quartile_of (9999 # 100)
  /\ ~ quartile_of (-1) <= quartile_of 0.
Proof.
  split.
  - apply quartile_of_monotone; unfold Qle; simpl; lia.
  - vm_compute. intro H. apply H. reflexivity.
Defined.

(** X3. The quartile of a record is 0 exactly when the course has no
    enabled timetable row or the student has no Present record for it, and
    it is 5 exactly when the course has an enabled row and the student has
    at least as many Present records as there are enabled rows. *)
Theorem quartile_extremes (db : DB) (self : Attendance) :
  let enabled := active_timetables_of_course db (att_course self) in
  let present := present_records db (att_student self) (att_course self) in
  (quartile db self = 0 <-> enabled = [] \/ present = [])
  /\ (quartile db self = 5 <-> 0 < count enabled <= count present).
Proof.
  intros enabled present. unfold quartile.
  rewrite quartile_of_is_zero, quartile_of_is_five.
  unfold attendance_percentage. fold enabled present.
  pose proof (count_nonneg enabled) as E. pose proof (count_nonneg present) as P.
  rewrite <- (count_zero enabled), <- (count_zero present).
  destruct (count enabled >? 0) eqn:T.
  - apply Z.gtb_lt in T.
    destruct (ratio_times_100_sign (count present) (count enabled) P T) as [_ Z0].
    rewrite Z0, (ratio_times_100_vs_100 _ _ T). lia.
  - assert (count enabled = 0) by (destruct (Z.gtb_spec (count enabled) 0); [discriminate | lia]).
    split; split; intro H0.
    + left. assumption.
    + reflexivity.
    + exfalso. revert H0. unfold Qle. simpl. lia.
    + exfalso. lia.
Qed.

(* ===================================================================== *)
(** ** Schedule resolver: the views that share it *)
(* ===================================================================== *)

Lemma is_active_now_is_current (clock : Clock) (t : Timetable) :
  is_active_now clock t
  = is_current (now_weekday clock) (now_time clock)
               (Some (course_department (tt_course t))) t.
Proof.
  unfold is_active_now, is_current. simpl. rewrite Z.eqb_refl, andb_true_r.
  rewrite Z.geb_leb, andb_assoc. reflexivity.
Qed.

Lemma current_timetable_some_inv db today current_time department entry :
  current_timetable db today current_time department = Some entry ->
  In entry (db_timetables db)
  /\ is_current today current_time department entry = true.
Proof.
  unfold current_timetable. intro E.
  apply first_in, in_order_by_meta, filter_In in E. exact E.
Qed.

Lemma current_timetable_none_inv db today current_time department :
  current_timetable db today current_time department = None ->
  forall t, In t (db_timetables db) ->
    is_current today current_time department t = false.
Proof.
  unfold current_timetable. intros E t I.
  apply first_order_by_meta_none in E.
  destruct (is_current today current_time department t) eqn:C; [| reflexivity].
  assert (X : In t (filter (is_current today current_time department)
                           (db_timetables db)))
    by (apply filter_In; split; assumption).
  rewrite E in X. destruct X.
Qed.

Lemma is_current_department today current_time department t :
  is_current today current_time department t = true ->
  department = Some (course_department (tt_course t)).
Proof.
  intro C. apply is_current_in_session in C. apply C.
Qed.

(** The class resolved at the request's time reports [is_active_now]. *)
Lemma resolved_is_active_now (db : DB) (clock : Clock) (department : option Z) :
  match current_timetable db (now_weekday clock) (now_time clock) department with
  | Some entry => is_active_now clock entry = true
  | None => True
  end.
Proof.
  destruct (current_timetable _ _ _ _) as [entry |] eqn:E; [| exact I].
  apply current_timetable_some_inv in E. destruct E as [_ C].
  rewrite is_active_now_is_current, <- (is_current_department _ _ _ _ C).
  exact C.
Qed.

(** X4. The resolver and [Timetable.is_active_now] agree: a class is
    resolved for a department exactly when some timetable row of a course of
    that department reports [is_active_now], and the class resolved always
    reports it. *)
Theorem current_timetable_is_active_now
  (db : DB) (clock : Clock) (department : option Z) :
  let resolved :=
    current_timetable db (now_weekday clock) (now_time clock) department in
  ((exists entry, resolved = Some entry)
   <-> (exists t, In t (db_timetables db)
                  /\ department = Some (course_department (tt_course t))
                  /\ is_active_now clock t = true))
  /\ match resolved with
     | Some entry => is_active_now clock entry = true
     | None => True
     end.
Proof.
  intro resolved. split; [split |].
  - intros (entry & E). apply current_timetable_some_inv in E.
    destruct E as [I C]. exists entry. split; [exact I |].
    pose proof (is_current_department _ _ _ _ C) as D. split; [exact D |].
    rewrite is_active_now_is_current, <- D. exact C.
  - intros (t & I & D & A). rewrite is_active_now_is_current, <- D in A.
    destruct resolved as [entry |] eqn:E; [exists entry; reflexivity |].
    rewrite (current_timetable_none_inv _ _ _ _ E t I) in A. discriminate.
  - apply resolved_is_active_now.
Qed.

(** The field [is_active_now] of a serialised class is true when the
    serialiser reads the same weekday and a time from the query's on up to
    the end of the class. *)
Lemma serialised_is_active_now (db : DB) (clock : Clock) (department : option Z)
      (entry : Timetable) :
  current_timetable db (now_weekday clock) (now_time clock) department
  = Some entry ->
  serial_weekday clock = now_weekday clock ->
  now_time clock <= serial_time clock <= tt_end_time entry ->
  data_is_active_now (TimetableSerializer clock entry) = true.
Proof.
  intros C W T.
  pose proof (resolved_is_active_now db clock department) as A.
  rewrite C in A. unfold TimetableSerializer, is_active_now in *. simpl in *.
  apply andb_true_iff in A. destruct A as [A Active].
  apply andb_true_iff in A. destruct A as [Day A].
  apply andb_true_iff in A. destruct A as [Start _].
  apply Z.eqb_eq in Day. apply Z.leb_le in Start.
  rewrite W, Active, andb_true_r.
  apply andb_true_iff. split; [apply Z.eqb_eq; exact Day |].
  apply andb_true_iff. split; apply Z.leb_le; lia.
Qed.

(** X5. [CurrentClassView.get] and [mark_attendance] resolve the class the
    same way: one answers 403 "only students" exactly when the other does,
    one answers "no active class" exactly when the other does, and when a
    class is returned it is the one in session at the view's reading of the
    clock and the one any record written by [mark_attendance] at that
    reading is for; its [is_active_now] field is read later, and is true
    when the serialiser reads the same weekday and a time up to the end of
    the class. *)
Theorem current_class_agrees_with_mark
  geodesic (db : DB) (clock : Clock) (user : User) (latitude longitude : Datum) :
  let shown := CurrentClassView_get db clock user in
  let marked := mark_attendance geodesic db clock user latitude longitude in
  (shown = Only_students_check <-> fst marked = Returned Only_students)
  /\ (shown = No_class_found <-> fst marked = Returned No_active_class)
  /\ match shown with
     | Current_class data =>
         is_active_now clock (data_timetable data) = true
         /\ (serial_weekday clock = now_weekday clock ->
             now_time clock <= serial_time clock
                            <= tt_end_time (data_timetable data) ->
             data_is_active_now data = true)
         /\ (snd marked = db
             \/ snd marked
                = with_attendance db
                    (db_attendance db
                     ++ [marked_row clock user (data_timetable data)
                                    latitude longitude]))
     | _ => True
     end.
Proof.
  intros shown marked. subst shown marked.
  pose proof (resolved_is_active_now db clock (user_department user)) as A.
  pose proof (serialised_is_active_now db clock (user_department user)) as B.
  pose proof (mark_attendance_effect geodesic db clock user latitude longitude) as W.
  revert W. unfold CurrentClassView_get, mark_attendance.
  destruct (UserType_eqb (user_type user) STUDENT); simpl negb; cbv iota.
  2: { intros _. simpl. repeat split; intro; (reflexivity || discriminate). }
  destruct (current_timetable _ _ _ _) as [entry |].
  2: { intros _. simpl. repeat split; intro; (reflexivity || discriminate). }
  intro W.
  assert (Eff : forall outcome : Outcome MarkResponse * DB,
            (snd outcome = db
             \/ exists entry',
                  Some entry = Some entry'
                  /\ exists_ (attendance_of (db_attendance db) (user_pk user)
                                            (tt_pk entry')) = false
                  /\ snd outcome
                     = with_attendance db
                         (db_attendance db
                          ++ [marked_row clock user entry' latitude longitude])) ->
            snd outcome = db
            \/ snd outcome
               = with_attendance db
                   (db_attendance db
                    ++ [marked_row clock user entry latitude longitude])).
  { intros outcome [H | (entry' & Eq & _ & H)]; [left; exact H |].
    injection Eq as <-. right. exact H. }
  specialize (Eff _ W). clear W.
  assert (Shown : is_active_now clock entry = true
                  /\ (serial_weekday clock = now_weekday clock ->
                      now_time clock <= serial_time clock <= tt_end_time entry ->
                      data_is_active_now (TimetableSerializer clock entry) = true))
    by (split; [exact A | exact (B entry eq_refl)]).
  clear A B. revert Eff.
  destruct (exists_ _).
  { intro Eff. simpl. repeat split; try (intro; discriminate); try apply Shown.
    exact Eff. }
  destruct (float latitude) as [? | lat].
  { intro Eff. simpl. repeat split; try (intro; discriminate); try apply Shown.
    exact Eff. }
  destruct (float longitude) as [? | lon].
  { intro Eff. simpl. repeat split; try (intro; discriminate); try apply Shown.
    exact Eff. }
  destruct (geodesic _ _) as [? | d].
  { intro Eff. simpl. repeat split; try (intro; discriminate); try apply Shown.
    exact Eff. }
  destruct (Qlt_bool _ d).
  { intro Eff. simpl. repeat split; try (intro; discriminate); try apply Shown.
    exact Eff. }
  destruct (Attendance_objects_create _ _) as [? | [attendance db']].
  { intro Eff. simpl. repeat split; try (intro; discriminate); try apply Shown.
    exact Eff. }
  destruct (to_representation (given latitude)).
  { intro Eff. simpl. repeat split; try (intro; discriminate); try apply Shown.
    exact Eff. }
  destruct (to_representation (given longitude));
    intro Eff; simpl; repeat split; try (intro; discriminate); try apply Shown;
    exact Eff.
Qed.

(* ===================================================================== *)
(** ** Attendance ledger: what a successful mark implies *)
(* ===================================================================== *)

(** Everything a 201 response tells about the request. *)
Lemma mark_attendance_marked_inv
  geodesic db clock user latitude longitude a db' :
  mark_attendance geodesic db clock user latitude longitude
  = (Returned (Marked a), db') ->
  user_type user = STUDENT
  /\ exists entry,
       current_timetable db (now_weekday clock) (now_time clock)
                         (user_department user) = Some entry
       /\ exists_ (attendance_of (db_attendance db) (user_pk user) (tt_pk entry))
          = false
       /\ a = mkAttendance (user_pk user) (course_pk (tt_course entry))
                (Some (tt_pk entry)) (now_stamp clock)
                (stored latitude) (stored longitude) PRESENT
       /\ db' = with_attendance db (db_attendance db ++ [a])
       /\ exists lat lon d,
            float latitude = inr lat /\ float longitude = inr lon
            /\ geodesic (hall_latitude (tt_lecture_hall entry),
                         hall_longitude (tt_lecture_hall entry)) (lat, lon) = inr d
            /\ (d <= inject_Z (hall_radius (tt_lecture_hall entry)))%Q.
Proof.
  unfold mark_attendance.
  destruct (user_type user) eqn:T; simpl; try discriminate.
  destruct (current_timetable _ _ _ _) as [entry |]; [| discriminate].
  destruct (exists_ _) eqn:E; [discriminate |].
  destruct (float latitude) as [? | lat] eqn:Flat; [discriminate |].
  destruct (float longitude) as [? | lon] eqn:Flon; [discriminate |].
  destruct (geodesic _ _) as [? | d] eqn:G; [discriminate |].
  destruct (Qlt_bool _ d) eqn:B; [discriminate |].
  rewrite (create_accepted db _ (tt_pk entry)); [| reflexivity | exact E].
  destruct (to_representation (given latitude)); [discriminate |].
  destruct (to_representation (given longitude)); [discriminate |].
  intro H. injection H as <- <-.
  split; [reflexivity |]. exists entry. repeat split; try assumption.
  exists lat, lon, d. repeat split; try assumption.
  apply Qlt_bool_false. exact B.
Qed.

Lemma current_timetable_with_attendance db rows today current_time department :
  current_timetable (with_attendance db rows) today current_time department
  = current_timetable db today current_time department.
Proof. reflexivity. Qed.

(** X6. Marking is refused the second time: after a 201, any further
    attempt by the same student at the same request time, whatever the
    coordinates and the distance function, answers "already marked" and
    changes nothing. *)
Theorem second_mark_is_refused
  geodesic db clock user latitude longitude a db' :
  mark_attendance geodesic db clock user latitude longitude
  = (Returned (Marked a), db') ->
  forall geodesic' latitude' longitude',
    mark_attendance geodesic' db' clock user latitude' longitude'
    = (Returned Already_marked, db').
Proof.
  intros H geodesic' latitude' longitude'.
  apply mark_attendance_marked_inv in H.
  destruct H as (S & entry & C & _ & A & -> & _).
  apply (mark_attendance_repeat geodesic' _ clock user entry S).
  - rewrite current_timetable_with_attendance. exact C.
  - apply existing_attendance_iff. exists a. simpl.
    split; [apply in_or_app; right; left; reflexivity |].
    rewrite A. split; reflexivity.
Qed.

Lemma second_mark_is_refused_witness :
  mark_attendance (fun _ _ => inl ValueError)
                  (with_attendance (db_open 100) [ada_marks_now])
                  monday_0900 ada Missing Missing
  = (Returned Already_marked, with_attendance (db_open 100) [ada_marks_now]).
Proof.
  apply (second_mark_is_refused flat_metres (db_open 100) monday_0900 ada
           (fst at_the_hall) (snd at_the_hall) ada_marks_now).
  reflexivity.
Defined.

Lemma mark_attendance_keeps_references
  geodesic db clock user latitude longitude :
  refers_to_timetable db ->
  refers_to_timetable
    (snd (mark_attendance geodesic db clock user latitude longitude)).
Proof.
  intro R.
  destruct (mark_attendance_effect geodesic db clock user latitude longitude)
    as [-> | (entry & C & _ & ->)]; [exact R |].
  apply current_timetable_some_inv in C. destruct C as [I _].
  intros a I'. simpl in I'. apply in_app_or in I'.
  destruct I' as [I' | [<- | []]]; [apply R; exact I' |].
  exists entry. simpl. repeat split. exact I.
Qed.

(** X7. [mark_attendance] keeps the ledger well formed whatever the
    request: if no two records share (student, timetable) and every record
    points to a timetable row of its own course before the call, the same
    holds after it. *)
Theorem mark_attendance_keeps_ledger_well_formed
  geodesic db clock user latitude longitude :
  unique_together (db_attendance db) ->
  refers_to_timetable db ->
  let db' := snd (mark_attendance geodesic db clock user latitude longitude) in
  unique_together (db_attendance db') /\ refers_to_timetable db'.
Proof.
  intros U R db'. split.
  - apply mark_attendance_keeps_unique. exact U.
  - apply mark_attendance_keeps_references. exact R.
Qed.

Lemma mark_attendance_keeps_ledger_well_formed_witness :
  unique_together
    (db_attendance (snd (mark_attendance flat_metres (db_open 100) monday_0900 ada
                           (fst at_the_hall) (snd at_the_hall))))
  /\ refers_to_timetable
       (snd (mark_attendance flat_metres (db_open 100) monday_0900 ada
               (fst at_the_hall) (snd at_the_hall))).
Proof.
  apply (mark_attendance_keeps_ledger_well_formed flat_metres (db_open 100)
           monday_0900 ada (fst at_the_hall) (snd at_the_hall)).
  - constructor.
  - intros a [].
Defined.

(* ===================================================================== *)
(** ** Login and the read views against the ledger *)
(* ===================================================================== *)

(** X8. For a student with no record yet for the class in session, the
    login and the mark take the same decisions on the same request: a bad
    role, no class, an exception on the coordinates and "too far", with its
    distance and radius, are answered by both alike; and when the login
    succeeds the mark creates the record for the class the login shows,
    and then answers 201, or ends in [InvalidOperation] when a coordinate
    does not fit the response. *)
Theorem login_agrees_with_mark
  geodesic db column clock user latitude longitude :
  (forall entry,
     current_timetable db (now_weekday clock) (now_time clock)
                       (user_department user) = Some entry ->
     exists_ (attendance_of (db_attendance db) (user_pk user) (tt_pk entry))
     = false) ->
  let marked := mark_attendance geodesic db clock user latitude longitude in
  match fst (student_login geodesic db column clock (Some user) latitude longitude)
  with
  | Returned Invalid_credentials => marked = (Returned Only_students, db)
  | Returned Login_no_active_class => marked = (Returned No_active_class, db)
  | Returned (Login_not_in_hall d r) => marked = (Returned (Not_in_hall d r), db)
  | Returned (Login_successful u class) =>
      u = user
      /\ exists a,
           a = marked_row clock user (data_timetable class) latitude longitude
           /\ snd marked = with_attendance db (db_attendance db ++ [a])
           /\ (fst marked = Returned (Marked a)
               \/ fst marked = Raised InvalidOperation)
           /\ (fits latitude -> fits longitude -> fst marked = Returned (Marked a))
  | Raised e => marked = (Raised e, db)
  end.
Proof.
  intros N marked. subst marked.
  unfold student_login, mark_attendance.
  destruct (UserType_eqb (user_type user) STUDENT); simpl negb; cbv iota;
    [| reflexivity].
  destruct (current_timetable _ _ _ _) as [entry |]; [| reflexivity].
  rewrite (N entry eq_refl).
  destruct (float latitude) as [? | lat]; [reflexivity |].
  destruct (float longitude) as [? | lon]; [reflexivity |].
  destruct (geodesic _ _) as [? | d]; [reflexivity |].
  destruct (Qlt_bool _ d); [reflexivity |].
  rewrite (create_accepted db _ (tt_pk entry));
    [| reflexivity | exact (N entry eq_refl)].
  simpl fst. split; [reflexivity |].
  eexists. split; [reflexivity |]. cbv zeta.
  fold (marked_row clock user entry latitude longitude).
  destruct (to_representation (given latitude)) as [e1 | v1] eqn:R1.
  - apply to_representation_error in R1 as E1. subst e1. simpl.
    split; [reflexivity |]. split; [right; reflexivity |].
    intros Fa _. apply to_representation_fits in Fa. destruct Fa as (v & Fa).
    congruence.
  - destruct (to_representation (given longitude)) as [e2 | v2] eqn:R2.
    + apply to_representation_error in R2 as E2. subst e2. simpl.
      split; [reflexivity |]. split; [right; reflexivity |].
      intros _ Fo. apply to_representation_fits in Fo. destruct Fo as (v & Fo).
      congruence.
    + simpl. split; [reflexivity |]. split; [left; reflexivity |].
      intros _ _. reflexivity.
Qed.

Lemma login_agrees_with_mark_witness :
  fst (student_login flat_metres (db_open 100) (fun _ => None) monday_0900
                     (Some ada) (fst ten_turns_east) (snd ten_turns_east))
  = Returned (Login_successful ada
                (TimetableSerializer monday_0900 (monday_class 100)))
  /\ exists a,
       a = marked_row monday_0900 ada (monday_class 100)
                      (fst ten_turns_east) (snd ten_turns_east)
       /\ snd (mark_attendance flat_metres (db_open 100) monday_0900 ada
                               (fst ten_turns_east) (snd ten_turns_east))
          = with_attendance (db_open 100) [a]
       /\ (fst (mark_attendance flat_metres (db_open 100) monday_0900 ada
                                (fst ten_turns_east) (snd ten_turns_east))
           = Returned (Marked a)
           \/ fst (mark_attendance flat_metres (db_open 100) monday_0900 ada
                                   (fst ten_turns_east) (snd ten_turns_east))
              = Raised InvalidOperation).
Proof.
  split; [reflexivity |].
  assert (N : forall entry,
             current_timetable (db_open 100) (now_weekday monday_0900)
               (now_time monday_0900) (user_department ada) = Some entry ->
             exists_ (attendance_of (db_attendance (db_open 100)) (user_pk ada)
                                    (tt_pk entry)) = false)
    by (intros entry _; reflexivity).
  pose proof (login_agrees_with_mark flat_metres (db_open 100) (fun _ => None)
                monday_0900 ada (fst ten_turns_east) (snd ten_turns_east) N) as H.
  change (fst (student_login flat_metres (db_open 100) (fun _ => None) monday_0900
                 (Some ada) (fst ten_turns_east) (snd ten_turns_east)))
    with (Returned (Login_successful ada
                      (TimetableSerializer monday_0900 (monday_class 100)))) in H.
  destruct H as (_ & a & Row & Written & Answer & _).
  exists a. split; [exact Row |]. split; [exact Written | exact Answer].
Defined.

(** X9. Only a login that succeeds writes [last_login_location], and it
    writes only the entry of the user who logged in, with the pair as it
    was supplied and the request's time. *)
Theorem student_login_writes_own_location
  geodesic db column clock authenticated latitude longitude :
  match student_login geodesic db column clock authenticated latitude longitude
  with
  | (Returned (Login_successful user _), column') =>
      authenticated = Some user
      /\ column' (user_pk user)
         = Some (mkLastLogin latitude longitude (now_stamp clock))
      /\ forall pk, pk <> user_pk user -> column' pk = column pk
  | (_, column') => column' = column
  end.
Proof.
  unfold student_login.
  destruct authenticated as [user |]; [| reflexivity].
  destruct (UserType_eqb (user_type user) STUDENT); simpl negb; cbv iota;
    [| reflexivity].
  destruct (current_timetable _ _ _ _) as [entry |]; [| reflexivity].
  destruct (float latitude) as [? | lat]; [reflexivity |].
  destruct (float longitude) as [? | lon]; [reflexivity |].
  destruct (geodesic _ _) as [? | d]; [reflexivity |].
  destruct (Qlt_bool _ d); [reflexivity |].
  split; [reflexivity |]. unfold save_last_login. split.
  - rewrite Z.eqb_refl. reflexivity.
  - intros pk N. apply Z.eqb_neq in N. rewrite N. reflexivity.
Qed.

Lemma in_insert_newest (x y : Attendance) (l : list Attendance) :
  In y (insert_newest x l) <-> y = x \/ In y l.
Proof.
  induction l as [| z l IH]; simpl.
  - intuition congruence.
  - destruct (att_timestamp z <=? att_timestamp x); simpl; [intuition congruence |].
    rewrite IH. intuition congruence.
Qed.

Lemma in_newest_first (y : Attendance) (l : list Attendance) :
  In y (newest_first l) <-> In y l.
Proof.
  induction l as [| x l IH]; simpl; [reflexivity |].
  rewrite in_insert_newest, IH. intuition congruence.
Qed.




(* ===================================================================== *)
(** ** Statistics: bounds of the course_stats percentage *)
(* ===================================================================== *)

(** A selection of the rows of a table with unique (student, timetable)
    pairs has unique pairs. *)
Lemma unique_together_filter (keep : Attendance -> bool) (rows : list Attendance) :
  unique_together rows -> unique_together (filter keep rows).
Proof.
  unfold unique_together.
  induction rows as [| row rows IH]; intro U; [constructor |].
  apply NoDup_cons_iff in U. destruct U as [fresh U]. simpl.
  destruct (keep row); [| exact (IH U)].
  simpl. apply NoDup_cons; [| exact (IH U)].
  intro dup. apply fresh.
  apply in_map_iff in dup. destruct dup as (other & same & kept).
  apply in_map_iff. exists other. split; [exact same |].
  apply filter_In in kept. exact (proj1 kept).
Qed.

(** In a well-formed ledger a student has at most one Present record per
    timetable row of the course. *)
Lemma present_at_most_entries (db : DB) (student course : Z) :
  unique_together (db_attendance db) ->
  refers_to_timetable db ->
  count (present_records db student course)
  <= count (timetables_of_course db course).
Proof.
  intros U R. unfold count. apply inj_le.
  rewrite <- (length_map att_timetable (present_records db student course)).
  rewrite <- (length_map (fun t => Some (tt_pk t)) (timetables_of_course db course)).
  apply NoDup_incl_length.
  - apply (NoDup_map_inv (pair student)). rewrite map_map.
    unfold present_records.
    erewrite map_ext_in; [apply (unique_together_filter _ _ U) |].
    intros a I. apply filter_In in I. destruct I as [_ I].
    apply andb_true_iff in I. destruct I as [I _].
    apply andb_true_iff in I. destruct I as [I _].
    apply Z.eqb_eq in I. simpl. rewrite I. reflexivity.
  - intros k I. apply in_map_iff in I. destruct I as (a & <- & I).
    unfold present_records in I. apply filter_In in I. destruct I as [I C].
    apply andb_true_iff in C. destruct C as [C _].
    apply andb_true_iff in C. destruct C as [_ C]. apply Z.eqb_eq in C.
    destruct (R a I) as (t & It & T & Ct).
    apply in_map_iff. exists t. split; [symmetry; exact T |].
    apply filter_In. split; [exact It |]. apply Z.eqb_eq. congruence.
Qed.

Lemma ratio_times_100_at_most_100 (a b : Z) :
  0 <= a <= b -> 0 < b -> (0 <= ratio_times_100 a b <= 100)%Q.
Proof.
  intros A B. split; [apply ratio_times_100_sign; lia |].
  unfold ratio_times_100.
  destruct b as [| b | b]; try lia.
  unfold Qle, Qdiv, Qmult, Qinv, inject_Z. simpl. lia.
Qed.



(** X12. In a well-formed ledger, the [attendance_percentage] served with a
    record lies between 0 and 100 when no timetable row of the record's
    course is disabled.  (With a disabled row it can exceed 100.) *)
Theorem attendance_percentage_in_range (db : DB) (self : Attendance) :
  unique_together (db_attendance db) ->
  refers_to_timetable db ->
  (forall t, In t (db_timetables db) ->
     course_pk (tt_course t) = att_course self -> tt_active t = true) ->
  (0 <= attendance_percentage db self <= 100)%Q.
Proof.
  intros U R A. split; [apply attendance_percentage_nonneg |].
  unfold attendance_percentage.
  replace (active_timetables_of_course db (att_course self))
    with (timetables_of_course db (att_course self)).
  - pose proof (present_at_most_entries db (att_student self) (att_course self) U R)
      as L.
    pose proof (count_nonneg (present_records db (att_student self)
                                              (att_course self))) as P.
    destruct (_ >? 0) eqn:T; [| discriminate].
    apply Z.gtb_lt in T. apply ratio_times_100_at_most_100; lia.
  - unfold active_timetables_of_course, timetables_of_course.
    apply filter_ext_in. intros t I.
    destruct (course_pk (tt_course t) =? att_course self) eqn:C; [| reflexivity].
    apply Z.eqb_eq in C. rewrite (A t I C). reflexivity.
Qed.

Lemma attendance_percentage_in_range_witness :
  (0 <= attendance_percentage db_marked ada_present <= 100)%Q
  /\ (100 < attendance_percentage db_disabled_since ada_present)%Q.
Proof.
  split; [| reflexivity].
  apply (attendance_percentage_in_range db_marked ada_present).
  - repeat constructor. intros [].
  - intros a [<- | []]. exists (monday_class 100).
    split; [left; reflexivity | split; reflexivity].
  - intros t [<- | []] _. reflexivity.
Defined.

(* ===================================================================== *)
(** ** Session auditor: the whole run *)
(* ===================================================================== *)

Lemma same_or_voided_refl (a : Attendance) : same_or_voided a a.
Proof. left. reflexivity. Qed.

Lemma same_or_voided_trans (a b c : Attendance) :
  same_or_voided a b -> same_or_voided b c -> same_or_voided a c.
Proof.
  unfold same_or_voided. intros [-> | ->] [-> | ->]; auto.
Qed.

Lemma Forall2_same_or_voided_refl (rows : list Attendance) :
  Forall2 same_or_voided rows rows.
Proof. induction rows; constructor; [apply same_or_voided_refl | assumption]. Qed.

Lemma Forall2_same_or_voided_trans (r1 r2 r3 : list Attendance) :
  Forall2 same_or_voided r1 r2 -> Forall2 same_or_voided r2 r3 ->
  Forall2 same_or_voided r1 r3.
Proof.
  intro H. revert r3. induction H as [| a b r1 r2 Hab _ IH]; intros r3 H3.
  - inversion H3. constructor.
  - inversion H3 as [| ? c ? r3' Hbc H']; subst.
    constructor; [eapply same_or_voided_trans; eassumption | apply IH; exact H'].
Qed.

Lemma update_voided_same_or_voided (rows : list Attendance) (timetable : Z) :
  Forall2 same_or_voided rows (snd (update_voided rows timetable)).
Proof.
  unfold update_voided. simpl.
  induction rows as [| a rows IH]; simpl; constructor; [| exact IH].
  destruct (opt_eqb _ _); [right | left]; reflexivity.
Qed.

Lemma audit_loop_same_or_voided (users : list User) (classes : list Timetable) :
  forall rows voided,
    Forall2 same_or_voided rows (snd (audit_loop users classes rows voided)).
Proof.
  induction classes as [| c classes IH]; intros rows voided; simpl.
  - apply Forall2_same_or_voided_refl.
  - destruct (true_div _ _) as [e | fraction]; simpl;
      [apply Forall2_same_or_voided_refl |].
    destruct (Qlt_bool fraction (1 # 10)); [| apply IH].
    eapply Forall2_same_or_voided_trans;
      [apply update_voided_same_or_voided | apply IH].
Qed.

(** X13. Whether it answers or fails, the audit only voids: it leaves the
    users, courses and timetables as they were, and the attendance table
    keeps its rows in place, each one unchanged or changed in its status
    alone, to Voided. *)
Theorem post_only_voids (db : DB) (clock : Clock) :
  db_users (snd (post db clock)) = db_users db
  /\ db_courses (snd (post db clock)) = db_courses db
  /\ db_timetables (snd (post db clock)) = db_timetables db
  /\ Forall2 same_or_voided (db_attendance db) (db_attendance (snd (post db clock))).
Proof.
  unfold post.
  pose proof (audit_loop_same_or_voided (db_users db) (recent_classes db clock)
                (db_attendance db) 0) as F.
  destruct (audit_loop _ _ _ _) as [[v | e] rows]; simpl in *;
    repeat split; exact F.
Qed.

Lemma records_of_map (f : Attendance -> Attendance) (rows : list Attendance) (k : Z) :
  (forall a, att_timetable (f a) = att_timetable a) ->
  records_of (map f rows) k = map f (records_of rows k).
Proof.
  intro T. unfold records_of.
  induction rows as [| a rows IH]; simpl; [reflexivity |].
  rewrite T. destruct (opt_eqb _ _); simpl; rewrite IH; reflexivity.
Qed.

Lemma records_of_void_in (ks : list Z) (rows : list Attendance) (k : Z) :
  records_of (void_in ks rows) k
  = map (fun a => if existsb (fun k' => opt_eqb (att_timetable a) (Some k')) ks
                  then set_status VOIDED a else a)
        (records_of rows k).
Proof.
  unfold void_in. apply records_of_map.
  intro a. destruct (existsb _ ks); reflexivity.
Qed.

Lemma count_records_of_void_in (ks : list Z) (rows : list Attendance) (k : Z) :
  count (records_of (void_in ks rows) k) = count (records_of rows k).
Proof.
  rewrite records_of_void_in. unfold count. rewrite length_map. reflexivity.
Qed.

Lemma update_voided_is_void_in (rows : list Attendance) (k : Z) :
  snd (update_voided rows k) = void_in [k] rows.
Proof.
  unfold update_voided, void_in. simpl.
  apply map_ext. intro a. rewrite orb_false_r. reflexivity.
Qed.

Lemma void_in_void_in (ks ks' : list Z) (rows : list Attendance) :
  void_in ks' (void_in ks rows) = void_in (ks ++ ks') rows.
Proof.
  unfold void_in. rewrite map_map. apply map_ext. intro a.
  rewrite existsb_app.
  destruct (existsb _ ks) eqn:E; simpl.
  - destruct (existsb _ ks'); reflexivity.
  - reflexivity.
Qed.

Lemma void_in_same_set (ks ks' : list Z) (rows : list Attendance) :
  (forall k, In k ks <-> In k ks') -> void_in ks rows = void_in ks' rows.
Proof.
  intro S. unfold void_in. apply map_ext. intro a.
  assert (E : existsb (fun k => opt_eqb (att_timetable a) (Some k)) ks
              = existsb (fun k => opt_eqb (att_timetable a) (Some k)) ks').
  { apply eq_true_iff_eq. rewrite !existsb_exists.
    split; intros (k & I & H); exists k; (split; [apply S; exact I | exact H]). }
  rewrite E. reflexivity.
Qed.

Lemma thinly_attended_void_in users ks rows c :
  thinly_attended users (void_in ks rows) c = thinly_attended users rows c.
Proof.
  unfold thinly_attended. rewrite count_records_of_void_in. reflexivity.
Qed.

(** With no empty cohort in the batch the loop has a closed form: it voids
    the thinly attended classes, judged on the table as it was, and adds up
    their record counts. *)
Lemma audit_loop_closed_form (users : list User) (classes : list Timetable) :
  Forall (fun c => cohort_size users c <> 0) classes ->
  forall rows voided,
    audit_loop users classes rows voided
    = (Returned
         (voided
          + total (map (fun c => count (records_of rows (tt_pk c)))
                       (filter (thinly_attended users rows) classes))),
       void_in (map tt_pk (filter (thinly_attended users rows) classes)) rows).
Proof.
  induction 1 as [| c classes C _ IH]; intros rows voided.
  - simpl. rewrite Z.add_0_r. unfold void_in. simpl. rewrite map_id. reflexivity.
  - simpl. unfold true_div. fold (cohort_size users c).
    apply Z.eqb_neq in C. rewrite C.
    fold (thinly_attended users rows c).
    destruct (thinly_attended users rows c) eqn:T.
    + change (map _ rows) with (snd (update_voided rows (tt_pk c))).
      rewrite update_voided_is_void_in, IH.
      rewrite void_in_void_in. simpl. f_equal.
      * f_equal. rewrite Z.add_assoc. f_equal.
        f_equal. erewrite filter_ext; [apply map_ext |].
        -- intro t. apply count_records_of_void_in.
        -- intro t. apply thinly_attended_void_in.
      * erewrite filter_ext; [reflexivity |].
        intro t. apply thinly_attended_void_in.
    + apply IH.
Qed.

Lemma cohort_size_zero (users : list User) (t : Timetable) :
  cohort_size users t = 0
  <-> students_of users (course_department (tt_course t))
                        (course_level (tt_course t)) = [].
Proof. unfold cohort_size. apply count_zero. Qed.

Lemma post_closed_form (db : DB) (clock : Clock) :
  Forall (fun c => cohort_size (db_users db) c <> 0) (recent_classes db clock) ->
  let thin := filter (thinly_attended (db_users db) (db_attendance db))
                     (recent_classes db clock) in
  post db clock
  = (Returned
       (mkAuditResponse
          (total (map (fun c => count (records_of (db_attendance db) (tt_pk c))) thin))
          (count (recent_classes db clock))),
     with_attendance db (void_in (map tt_pk thin) (db_attendance db))).
Proof.
  intros C thin. unfold post.
  rewrite (audit_loop_closed_form _ _ C). reflexivity.
Qed.

Lemma post_returned_cohorts (db : DB) (clock : Clock) (response : AuditResponse) :
  fst (post db clock) = Returned response ->
  Forall (fun c => cohort_size (db_users db) c <> 0) (recent_classes db clock).
Proof.
  intro H. apply Forall_forall. intros t I Z0.
  apply cohort_size_zero in Z0.
  pose proof (audit_loop_empty_cohort (db_users db) (recent_classes db clock)
                t I Z0 (db_attendance db) 0) as R.
  unfold post in H.
  destruct (audit_loop _ _ _ _) as [[v | e] rows]; simpl in *; congruence.
Qed.

(** The query of the audit, row by row. *)
Lemma recent_classes_audited (db : DB) (clock : Clock) :
  recent_classes db clock
  = order_by_meta (filter (audited clock) (db_timetables db)).
Proof.
  unfold recent_classes. f_equal. apply filter_ext. intro t.
  unfold audited, one_hour_ago. rewrite Z.geb_leb. reflexivity.
Qed.

Lemma in_recent_classes (db : DB) (clock : Clock) (t : Timetable) :
  In t (recent_classes db clock)
  <-> In t (db_timetables db) /\ audited clock t = true.
Proof.
  rewrite recent_classes_audited, in_order_by_meta. apply filter_In.
Qed.

Lemma insert_ordered_perm (x : Timetable) (l : list Timetable) :
  Permutation (insert_ordered x l) (x :: l).
Proof.
  induction l as [| y l IH]; simpl; [reflexivity |].
  destruct (ordering_le x y); [reflexivity |].
  rewrite IH. apply perm_swap.
Qed.

Lemma order_by_meta_perm (l : list Timetable) : Permutation (order_by_meta l) l.
Proof.
  induction l as [| x l IH]; simpl; [constructor |].
  rewrite insert_ordered_perm. constructor. exact IH.
Qed.

Lemma total_perm (l l' : list Z) : Permutation l l' -> total l = total l'.
Proof.
  unfold total. induction 1; simpl; lia.
Qed.

Lemma thin_perm (keep : Timetable -> bool) (l l' : list Timetable) :
  Permutation l l' -> Permutation (filter keep l) (filter keep l').
Proof.
  induction 1 as [| x l l' P IH | x y l | l l' l'' P IH P' IH']; simpl.
  - constructor.
  - destruct (keep x); [constructor |]; exact IH.
  - destruct (keep x), (keep y); try reflexivity. apply perm_swap.
  - etransitivity; eassumption.
Qed.

(** Within the first hour of the day the hour before lies on the day
    before, and its time of day is later than any time of today so far. *)
Lemma audited_first_hour (clock : Clock) (t : Timetable) :
  0 <= local_time clock < one_hour ->
  now_time clock = local_time clock ->
  audited clock t = false.
Proof.
  intros H E. unfold audited.
  assert (W : (local_time clock - one_hour) mod one_day
              = local_time clock - one_hour + one_day).
  { symmetry. apply Z.mod_unique with (q := -1);
      unfold one_day, one_hour in *; lia. }
  rewrite W, E.
  destruct (local_time clock - one_hour + one_day <=? tt_end_time t) eqn:A;
    [| rewrite andb_false_r; reflexivity].
  destruct (tt_end_time t <=? local_time clock) eqn:B;
    [| rewrite andb_false_r; reflexivity].
  apply Z.leb_le in A, B. unfold one_day, one_hour in *. lia.
Qed.

(** X14. The audit answers exactly when every class its query selects has
    at least one student in its cohort; otherwise the only way it fails is
    the division by zero.  The query selects the enabled rows of today's
    weekday whose end time lies between the server's local wall-clock time
    taken one hour back, a time of day that wraps at midnight, and the
    current time: within the first hour of the day (the two clocks reading
    the same) it selects nothing, and the audit answers with two zeros and
    leaves the database as it was, whatever classes have just ended. *)
Theorem post_answers_iff (db : DB) (clock : Clock) :
  ((exists response, fst (post db clock) = Returned response)
   <-> forall t, In t (db_timetables db) -> audited clock t = true ->
         cohort_size (db_users db) t <> 0)
  /\ (forall e, fst (post db clock) = Raised e -> e = ZeroDivisionError)
  /\ (0 <= local_time clock < one_hour ->
      now_time clock = local_time clock ->
      post db clock = (Returned (mkAuditResponse 0 0), db)).
Proof.
  split; [split | split].
  - intros (response & H) t I A.
    pose proof (post_returned_cohorts db clock response H) as C.
    rewrite Forall_forall in C. apply C, in_recent_classes. split; assumption.
  - intro C.
    assert (C' : Forall (fun c => cohort_size (db_users db) c <> 0)
                        (recent_classes db clock)).
    { apply Forall_forall. intros t I. apply in_recent_classes in I.
      destruct I as [I A]. exact (C t I A). }
    rewrite (post_closed_form db clock C'). eexists. reflexivity.
  - intros e H.
    destruct (Forall_Exists_dec (fun c => cohort_size (db_users db) c <> 0)
                (fun c => match Z.eq_dec (cohort_size (db_users db) c) 0 with
                          | left E => right (fun N => N E)
                          | right N => left N
                          end)
                (recent_classes db clock)) as [C | X].
    + rewrite (post_closed_form db clock C) in H. discriminate.
    + apply Exists_exists in X. destruct X as (t & I & N).
      assert (Z0 : cohort_size (db_users db) t = 0)
        by (destruct (Z.eq_dec (cohort_size (db_users db) t) 0); [assumption | contradiction]).
      apply cohort_size_zero in Z0.
      pose proof (audit_loop_empty_cohort (db_users db) (recent_classes db clock)
                    t I Z0 (db_attendance db) 0) as R.
      unfold post in H.
      destruct (audit_loop _ _ _ _) as [[v | e'] rows]; simpl in *; congruence.
  - intros H E. unfold post. rewrite recent_classes_audited.
    rewrite (filter_ext (audited clock) (fun _ => false)
               (fun t => audited_first_hour clock t H E)), filter_false.
    destruct db; reflexivity.
Qed.

(** X15. When the audit answers, [total_classes] is the number of rows its
    query selects (the enabled rows of today's weekday whose end time lies
    between the local wall-clock time taken one hour back, modulo a day, and
    the current time) and [voided_count] is the sum, over the thinly
    attended ones among them, of the number of records of the class (of any
    status) as the table stood before the run. *)
Theorem post_counts (db : DB) (clock : Clock) (response : AuditResponse) :
  fst (post db clock) = Returned response ->
  let selected := filter (audited clock) (db_timetables db) in
  total_classes response = count selected
  /\ voided_count response
     = total (map (fun c => count (records_of (db_attendance db) (tt_pk c)))
                  (filter (thinly_attended (db_users db) (db_attendance db))
                          selected)).
Proof.
  intros H selected. pose proof (post_returned_cohorts db clock response H) as C.
  rewrite (post_closed_form db clock C) in H. simpl in H.
  injection H as <-. cbn [total_classes voided_count].
  assert (P : Permutation (recent_classes db clock) selected)
    by (rewrite recent_classes_audited; apply order_by_meta_perm).
  split.
  - unfold count. f_equal. apply Permutation_length. exact P.
  - apply total_perm, Permutation_map, thin_perm. exact P.
Qed.

Lemma post_counts_witness :
  total_classes (mkAuditResponse 1 1)
  = count (filter (audited monday_1030) (db_timetables db_thin))
  /\ voided_count (mkAuditResponse 1 1)
     = total (map (fun c => count (records_of (db_attendance db_thin) (tt_pk c)))
                  (filter (thinly_attended (db_users db_thin) (db_attendance db_thin))
                          (filter (audited monday_1030) (db_timetables db_thin)))).
Proof.
  apply (post_counts db_thin monday_1030). reflexivity.
Defined.

(** The comparison of the fraction with 0.1, in whole numbers. *)
Lemma thinly_attended_iff (users : list User) (rows : list Attendance)
      (c : Timetable) :
  cohort_size users c <> 0 ->
  (thinly_attended users rows c = true
   <-> 10 * count (records_of rows (tt_pk c)) < cohort_size users c).
Proof.
  intro N. unfold thinly_attended. rewrite Qlt_bool_iff.
  pose proof (count_nonneg (students_of users (course_department (tt_course c))
                                        (course_level (tt_course c)))) as P.
  fold (cohort_size users c) in P.
  generalize (count (records_of rows (tt_pk c))). intro m.
  destruct (cohort_size users c) as [| p | p]; try lia.
  unfold Qlt, Qdiv, Qmult, Qinv, inject_Z. simpl Qnum. simpl Qden.
  lia.
Qed.

(** X16. Voiding is all or nothing per class, with the threshold at one in
    ten: when the audit answers, every record of a class its query selects
    (an enabled row of today's weekday whose end time lies between the local
    wall-clock time taken one hour back, modulo a day, and the current time)
    that has fewer than a tenth of its cohort marked (10 x marked < cohort)
    is Voided afterwards, and the records of a timetable are exactly as they
    were when every selected class of that timetable has at least a tenth
    marked (cohort <= 10 x marked, equality included) or when the query does
    not select it at all. *)
Theorem post_voids_all_or_nothing
  (db : DB) (clock : Clock) (response : AuditResponse) :
  fst (post db clock) = Returned response ->
  let users := db_users db in
  let before := db_attendance db in
  let after := db_attendance (snd (post db clock)) in
  (forall c, In c (db_timetables db) -> audited clock c = true ->
     10 * count (records_of before (tt_pk c)) < cohort_size users c ->
     Forall (fun a => att_status a = VOIDED) (records_of after (tt_pk c)))
  /\ (forall k,
        (forall c, In c (db_timetables db) -> audited clock c = true ->
           tt_pk c = k ->
           cohort_size users c <= 10 * count (records_of before k)) ->
        records_of after k = records_of before k).
Proof.
  intros H users before after.
  pose proof (post_returned_cohorts db clock response H) as C.
  subst after. rewrite (post_closed_form db clock C).
  cbn [snd with_attendance db_attendance].
  fold users before. rewrite Forall_forall in C. split.
  - intros c Ic A T.
    assert (I : In c (recent_classes db clock))
      by (apply in_recent_classes; split; assumption).
    apply (thinly_attended_iff users before c (C c I)) in T.
    rewrite records_of_void_in.
    apply Forall_forall. intros a Ia. apply in_map_iff in Ia.
    destruct Ia as (b & <- & Ib). apply filter_In in Ib. destruct Ib as [_ K].
    assert (E : existsb (fun k' => opt_eqb (att_timetable b) (Some k'))
                  (map tt_pk (filter (thinly_attended users before)
                                     (recent_classes db clock))) = true).
    { apply existsb_exists. exists (tt_pk c). split; [| exact K].
      apply in_map, filter_In. split; assumption. }
    rewrite E. reflexivity.
  - intros k N. rewrite records_of_void_in.
    rewrite <- (map_id (records_of before k)) at 2.
    apply map_ext_in. intros a Ia. apply filter_In in Ia. destruct Ia as [_ K].
    destruct (existsb _ _) eqn:E; [| reflexivity].
    apply existsb_exists in E. destruct E as (k' & Ik & K').
    apply in_map_iff in Ik. destruct Ik as (c & <- & Ic).
    apply filter_In in Ic. destruct Ic as [Ic T].
    apply opt_eqb_eq in K. apply opt_eqb_eq in K'.
    assert (Kc : tt_pk c = k) by congruence.
    apply (thinly_attended_iff users before c (C c Ic)) in T.
    apply in_recent_classes in Ic. destruct Ic as [Ic A].
    specialize (N c Ic A Kc). rewrite <- Kc in N. lia.
Qed.

Lemma post_voids_all_or_nothing_witness :
  Forall (fun a => att_status a = VOIDED)
         (records_of (db_attendance (snd (post db_thin monday_1030)))
                     (tt_pk (monday_class 100)))
  /\ records_of (db_attendance (snd (post db_tenth monday_1030)))
                (tt_pk (monday_class 100))
     = records_of (db_attendance db_tenth) (tt_pk (monday_class 100)).
Proof.
  destruct (post_voids_all_or_nothing db_thin monday_1030 (mkAuditResponse 1 1)
              eq_refl) as [voids _].
  destruct (post_voids_all_or_nothing db_tenth monday_1030 (mkAuditResponse 0 1)
              eq_refl) as [_ spares].
  split.
  - apply voids; [left; reflexivity | reflexivity | vm_compute; reflexivity].
  - apply spares. intros c [<- | []] _ _. vm_compute. discriminate.
Defined.

(** X17. Running the audit again at the same time on the database it left
    gives the same answer and changes nothing more. *)
Theorem post_twice (db : DB) (clock : Clock) (response : AuditResponse) :
  fst (post db clock) = Returned response ->
  post (snd (post db clock)) clock = (Returned response, snd (post db clock)).
Proof.
  intro H. pose proof (post_returned_cohorts db clock response H) as C.
  rewrite (post_closed_form db clock C) in H |- *. simpl in H. injection H as <-.
  cbv zeta. simpl snd.
  set (thin := filter (thinly_attended (db_users db) (db_attendance db))
                      (recent_classes db clock)).
  rewrite post_closed_form by exact C. cbv zeta.
  change (recent_classes (with_attendance db _) clock) with (recent_classes db clock).
  simpl db_users. simpl db_attendance.
  assert (F : filter (thinly_attended (db_users db)
                        (void_in (map tt_pk thin) (db_attendance db)))
                     (recent_classes db clock) = thin).
  { apply filter_ext. intro t. apply thinly_attended_void_in. }
  rewrite F. f_equal.
  - f_equal. f_equal. f_equal. apply map_ext. intro t.
    apply count_records_of_void_in.
  - unfold with_attendance. simpl. f_equal.
    rewrite void_in_void_in. apply void_in_same_set.
    intro k. rewrite in_app_iff. tauto.
Qed.

Lemma post_twice_witness :
  post (snd (post db_thin monday_1030)) monday_1030
  = (Returned (mkAuditResponse 1 1), snd (post db_thin monday_1030)).
Proof.
  apply (post_twice db_thin monday_1030). reflexivity.
Defined.

(* ===================================================================== *)
(** ** The read views: who sees which records, in which order *)
(* ===================================================================== *)

(** X18. [get_queryset] shows a student the records marked by that student
    and nothing else, a lecturer the records of the courses in
    [user.courses] and nothing else, and anyone else no record at all. *)
Theorem get_queryset_visibility (db : DB) (user : User) (a : Attendance) :
  In a (get_queryset db user)
  <-> In a (db_attendance db)
      /\ match user_type user with
         | STUDENT => att_student a = user_pk user
         | LECTURER => In (att_course a) (user_courses user)
         | ADMIN => False
         end.
Proof.
  unfold get_queryset. destruct (user_type user).
  - rewrite in_newest_first, filter_In, Z.eqb_eq. reflexivity.
  - rewrite in_newest_first, filter_In, existsb_exists.
    split; intros [I H]; (split; [exact I |]).
    + destruct H as (c & Ic & E). apply Z.eqb_eq in E. rewrite E. exact Ic.
    + exists (att_course a). split; [exact H | apply Z.eqb_refl].
  - simpl. tauto.
Qed.

Lemma insert_newest_perm (x : Attendance) (l : list Attendance) :
  Permutation (insert_newest x l) (x :: l).
Proof.
  induction l as [| y l IH]; simpl; [reflexivity |].
  destruct (att_timestamp y <=? att_timestamp x); [reflexivity |].
  rewrite IH. apply perm_swap.
Qed.


Lemma insert_newest_sorted (x : Attendance) (l : list Attendance) :
  StronglySorted not_older l -> StronglySorted not_older (insert_newest x l).
Proof.
  induction l as [| y l IH]; simpl; intro S.
  - constructor; constructor.
  - inversion S as [| ? ? Sl Fy]; subst.
    destruct (att_timestamp y <=? att_timestamp x) eqn:C.
    + apply Z.leb_le in C. constructor; [exact S |].
      constructor; [exact C |].
      eapply Forall_impl; [| exact Fy]. unfold not_older. intros z Hz. lia.
    + apply Z.leb_gt in C. constructor; [apply IH; exact Sl |].
      eapply Permutation_Forall; [symmetry; apply insert_newest_perm |].
      constructor; [unfold not_older; lia | exact Fy].
Qed.

Lemma newest_first_sorted (l : list Attendance) :
  StronglySorted not_older (newest_first l).
Proof.
  induction l as [| x l IH]; simpl; [constructor |].
  apply insert_newest_sorted. exact IH.
Qed.



(* ===================================================================== *)
(** ** Export *)
(* ===================================================================== *)

Lemma nth_error_enumerate {A : Type} (l : list A) :
  forall (start : Z) (k : nat),
    nth_error (enumerate start l) k
    = option_map (fun a => (start + Z.of_nat k, a)) (nth_error l k).
Proof.
  induction l as [| x l IH]; intros start k.
  - destruct k; reflexivity.
  - destruct k as [| k]; simpl.
    + rewrite Z.add_0_r. reflexivity.
    + rewrite IH. destruct (nth_error l k); simpl; [| reflexivity].
      do 2 f_equal. lia.
Qed.

(** The branches of the view on the requested format. *)
Ltac export_formats fmt :=
  destruct (String.eqb fmt "csv");
  [| destruct (String.eqb fmt "xlsx");
     [| destruct (String.eqb fmt "pdf");
        [cbv zeta;
         match goal with
         | |- context [draw_rows ?m ?g ?s ?y ?r] =>
             let D := fresh "Drawn" in destruct (draw_rows m g s y r) eqn:D
         end |]]].

Section ExportFacts.

Variable matric_number : Z -> option string.
Variable get_full_name : Z -> string.
Variable course_code : Course -> string.
Variable course_title : Course -> string.
Variable strftime : Z -> string.

Let export := export_attendance matric_number get_full_name course_code
                                course_title strftime.
Let row := export_row matric_number get_full_name strftime.
Let draw := draw_rows matric_number get_full_name strftime.

(** A file is only produced from a default-ordered selection of the records
    the user may export. *)
Lemma export_file_records db clock user course_id format course :
  (exists rows, export db clock user course_id format = Csv_file course rows)
  \/ (exists rows, export db clock user course_id format = Xlsx_file course rows)
  \/ (exists drawn, export db clock user course_id format = Pdf_file course drawn) ->
  exists records,
    StronglySorted not_older records
    /\ (forall a, In a records <-> In a (db_attendance db) /\ may_export user course a)
    /\ (forall rows, export db clock user course_id format = Csv_file course rows ->
          rows = header_row :: map (fun '(idx, a) => row idx a) (enumerate 1 records))
    /\ (forall rows, export db clock user course_id format = Xlsx_file course rows ->
          rows = header_row :: map (fun '(idx, a) => row idx a) (enumerate 1 records))
    /\ (forall drawn, export db clock user course_id format = Pdf_file course drawn ->
          draw 750 (enumerate 1 records) = inr (skipn 7 drawn)).
Proof.
  unfold export, export_attendance, may_export.
  destruct course_id as [course_id |];
    [| intros [(? & H) | [(? & H) | (? & H)]]; discriminate H].
  destruct (get_course db course_id) as [c |];
    [| intros [(? & H) | [(? & H) | (? & H)]]; discriminate H].
  set (fmt := match format with Some f => f | None => "csv"%string end).
  destruct (user_type user) eqn:T.
  - intro F.
    assert (c = course) as ->.
    { revert F. export_formats fmt; intros [(? & H) | [(? & H) | (? & H)]]; congruence. }
    exists (newest_first (filter (fun a => (att_student a =? user_pk user)
                                   && (att_course a =? course_pk course))
                         (db_attendance db))).
    split; [apply newest_first_sorted |]. split.
    + intro a. rewrite in_newest_first, filter_In, andb_true_iff, !Z.eqb_eq. tauto.
    + export_formats fmt; repeat split; intros ? H; try discriminate H;
        injection H as <-; first [reflexivity | assumption].
  - destruct (existsb (Z.eqb (course_pk c)) (user_courses user)) eqn:Teach; simpl negb;
      cbv iota; [| intros [(? & H) | [(? & H) | (? & H)]]; discriminate H].
    intro F.
    assert (c = course) as ->.
    { revert F. export_formats fmt; intros [(? & H) | [(? & H) | (? & H)]]; congruence. }
    exists (newest_first (filter (fun a => att_course a =? course_pk course)
                         (db_attendance db))).
    split; [apply newest_first_sorted |]. split.
    + intro a. rewrite in_newest_first, filter_In, Z.eqb_eq.
      apply existsb_exists in Teach. destruct Teach as (k & Ik & E).
      apply Z.eqb_eq in E. subst k. tauto.
    + export_formats fmt; repeat split; intros ? H; try discriminate H;
        injection H as <-; first [reflexivity | assumption].
  - intro F.
    assert (c = course) as ->.
    { revert F. export_formats fmt; intros [(? & H) | [(? & H) | (? & H)]]; congruence. }
    exists (newest_first (filter (fun a => att_course a =? course_pk course)
                         (db_attendance db))).
    split; [apply newest_first_sorted |]. split.
    + intro a. rewrite in_newest_first, filter_In, Z.eqb_eq. tauto.
    + export_formats fmt; repeat split; intros ? H; try discriminate H;
        injection H as <-; first [reflexivity | assumption].
Qed.

(** Only the canvas can make the view raise, on the same selection. *)
Lemma export_raised_records db clock user course_id format e :
  export db clock user course_id format = Export_raised e ->
  exists cid course records,
    course_id = Some cid
    /\ get_course db cid = Some course
    /\ (forall a, In a records <-> In a (db_attendance db) /\ may_export user course a)
    /\ draw 750 (enumerate 1 records) = inl e.
Proof.
  unfold export, export_attendance, may_export.
  destruct course_id as [course_id |]; [| discriminate].
  destruct (get_course db course_id) as [c |] eqn:G; [| discriminate].
  set (fmt := match format with Some f => f | None => "csv"%string end).
  destruct (user_type user) eqn:T.
  - intro F. exists course_id, c.
    exists (newest_first (filter (fun a => (att_student a =? user_pk user)
                                   && (att_course a =? course_pk c))
                         (db_attendance db))).
    split; [reflexivity |]. split; [exact G |]. split.
    + intro a. rewrite in_newest_first, filter_In, andb_true_iff, !Z.eqb_eq. tauto.
    + revert F. export_formats fmt; intro F; try discriminate F.
      injection F as <-. assumption.
  - destruct (existsb (Z.eqb (course_pk c)) (user_courses user)) eqn:Teach; simpl negb;
      cbv iota; [| discriminate].
    intro F. exists course_id, c.
    exists (newest_first (filter (fun a => att_course a =? course_pk c)
                         (db_attendance db))).
    split; [reflexivity |]. split; [exact G |]. split.
    + intro a. rewrite in_newest_first, filter_In, Z.eqb_eq.
      apply existsb_exists in Teach. destruct Teach as (k & Ik & E).
      apply Z.eqb_eq in E. subst k. tauto.
    + revert F. export_formats fmt; intro F; try discriminate F.
      injection F as <-. assumption.
  - intro F. exists course_id, c.
    exists (newest_first (filter (fun a => att_course a =? course_pk c)
                         (db_attendance db))).
    split; [reflexivity |]. split; [exact G |]. split.
    + intro a. rewrite in_newest_first, filter_In, Z.eqb_eq. tauto.
    + revert F. export_formats fmt; intro F; try discriminate F.
      injection F as <-. assumption.
Qed.

(** What [drawString] is given decides whether the loop raises. *)
Lemma draw_rows_nth (records : list Attendance) :
  forall (y start : Z) (drawn : list (Z * Z * Cell)) (k : nat) (a : Attendance),
    draw y (enumerate start records) = inr drawn ->
    nth_error records k = Some a ->
    exists m,
      matric_number (att_student a) = Some m
      /\ firstn 5 (skipn (5 * k) drawn)
         = [(100, y - 20 * (Z.of_nat k + 1), Int_cell (start + Z.of_nat k));
            (150, y - 20 * (Z.of_nat k + 1), Str_cell m);
            (300, y - 20 * (Z.of_nat k + 1), Str_cell (get_full_name (att_student a)));
            (450, y - 20 * (Z.of_nat k + 1), Str_cell (strftime (att_timestamp a)));
            (550, y - 20 * (Z.of_nat k + 1),
             Str_cell (get_status_display (att_status a)))].
Proof.
  unfold draw.
  induction records as [| r records IH]; intros y start drawn k a D H.
  - destruct k; discriminate H.
  - cbn [enumerate draw_rows] in D. cbv zeta in D.
    unfold matric_cell in D.
    destruct (matric_number (att_student r)) as [m |] eqn:M;
      cbn [drawString] in D; [| discriminate D].
    destruct (draw_rows matric_number get_full_name strftime (y - 20)
                        (enumerate (start + 1) records)) as [e | below] eqn:B;
      [discriminate D |].
    injection D as <-.
    destruct k as [| k].
    + injection H as <-. exists m. split; [exact M |].
      simpl. rewrite Z.add_0_r. reflexivity.
    + simpl in H. destruct (IH (y - 20) (start + 1) below k a B H) as (m' & M' & F).
      exists m'. split; [exact M' |].
      replace (5 * S k)%nat with (5 * k + 5)%nat by lia.
      rewrite <- skipn_skipn. simpl (skipn 5 _). rewrite F.
      replace (y - 20 - 20 * (Z.of_nat k + 1)) with (y - 20 * (Z.of_nat (S k) + 1)) by lia.
      replace (start + 1 + Z.of_nat k) with (start + Z.of_nat (S k)) by lia.
      reflexivity.
Qed.

Lemma draw_rows_raises (records : list Attendance) :
  forall (y start : Z) (e : Exception),
    draw y (enumerate start records) = inl e ->
    e = AttributeError
    /\ exists a, In a records /\ matric_number (att_student a) = None.
Proof.
  unfold draw.
  induction records as [| r records IH]; intros y start e D.
  - discriminate D.
  - cbn [enumerate draw_rows] in D. cbv zeta in D.
    unfold matric_cell in D.
    destruct (matric_number (att_student r)) as [m |] eqn:M; cbn [drawString] in D.
    + destruct (draw_rows matric_number get_full_name strftime (y - 20)
                          (enumerate (start + 1) records)) as [e' | below] eqn:B;
        [| discriminate D].
      injection D as <-.
      destruct (IH (y - 20) (start + 1) e' B) as (E & a & I & N).
      split; [exact E |]. exists a. split; [right; exact I | exact N].
    + injection D as <-. split; [reflexivity |].
      exists r. split; [left; reflexivity | exact M].
Qed.

End ExportFacts.

(** X20. A CSV or worksheet export is the header row followed by one row
    per record the user may export (a student's own records of the course;
    all records of the course for its lecturer and for an administrator),
    newest first, Voided records included, and the S/N of the k-th of them
    is k, counted from 1. *)
Theorem export_rows_are_numbered
  matric_number get_full_name course_code course_title strftime
  db clock user course_id format course rows :
  export_attendance matric_number get_full_name course_code course_title strftime
                    db clock user course_id format = Csv_file course rows
  \/ export_attendance matric_number get_full_name course_code course_title strftime
                       db clock user course_id format = Xlsx_file course rows ->
  exists records,
    StronglySorted not_older records
    /\ (forall a, In a records <-> In a (db_attendance db) /\ may_export user course a)
    /\ List.length rows = S (List.length records)
    /\ nth_error rows 0 = Some header_row
    /\ forall k a, nth_error records k = Some a ->
         nth_error rows (S k)
         = Some (export_row matric_number get_full_name strftime
                            (Z.of_nat k + 1) a).
Proof.
  intro F.
  destruct (export_file_records matric_number get_full_name course_code
              course_title strftime db clock user course_id format course)
    as (records & Sorted & Sel & Csv & Xlsx & _).
  { destruct F as [F | F]; [left | right; left]; exists rows; exact F. }
  exists records. split; [exact Sorted |]. split; [exact Sel |].
  assert (R : rows = header_row
                     :: map (fun '(idx, a) =>
                               export_row matric_number get_full_name strftime idx a)
                            (enumerate 1 records))
    by (destruct F as [F | F]; [apply Csv | apply Xlsx]; exact F).
  rewrite R. split.
  - simpl. f_equal. rewrite length_map.
    clear. generalize 1. induction records as [| r records IH]; intro s;
      simpl; [reflexivity | rewrite IH; reflexivity].
  - split; [reflexivity |]. intros k a N. simpl.
    rewrite nth_error_map, nth_error_enumerate, N. simpl.
    rewrite Z.add_comm. reflexivity.
Qed.

Lemma export_rows_are_numbered_witness :
  exists records,
    StronglySorted not_older records
    /\ (forall a, In a records
                  <-> In a (db_attendance db_marked) /\ may_export ada csc201 a)
    /\ List.length [header_row;
                    export_row no_matric anonymous unformatted 1 ada_present]
       = S (List.length records)
    /\ nth_error [header_row;
                  export_row no_matric anonymous unformatted 1 ada_present] 0
       = Some header_row
    /\ forall k a, nth_error records k = Some a ->
         nth_error [header_row;
                    export_row no_matric anonymous unformatted 1 ada_present] (S k)
         = Some (export_row no_matric anonymous unformatted (Z.of_nat k + 1) a).
Proof.
  apply (export_rows_are_numbered no_matric anonymous code_of title_of unformatted
           db_marked monday_0900 ada (Some 1) None csc201).
  left. reflexivity.
Defined.

(** X21. The PDF branch hands every text to [drawString], which cannot
    draw [None].  When a PDF is returned, every record of the selection (the
    same selection and order as the other formats) belongs to a student with
    a matric number, and the record number n (counted from 1) is drawn with
    five [drawString] calls at height 750 - 20 n, after the seven calls of
    the title and the header; no page is ever started, so from the 38th
    record on the height is negative.  When the view raises instead, the
    exception is [AttributeError] and some record of the selection belongs
    to a student whose matric number is NULL. *)
Theorem pdf_rows_heights
  matric_number get_full_name course_code course_title strftime
  db clock user course_id format :
  match export_attendance matric_number get_full_name course_code course_title
                          strftime db clock user course_id format with
  | Pdf_file course drawn =>
      exists records,
        StronglySorted not_older records
        /\ (forall a, In a records
                      <-> In a (db_attendance db) /\ may_export user course a)
        /\ forall k a, nth_error records k = Some a ->
             let n := Z.of_nat k + 1 in
             exists m,
               matric_number (att_student a) = Some m
               /\ firstn 5 (skipn (5 * k) (skipn 7 drawn))
                  = [(100, 750 - 20 * n, Int_cell n);
                     (150, 750 - 20 * n, Str_cell m);
                     (300, 750 - 20 * n, Str_cell (get_full_name (att_student a)));
                     (450, 750 - 20 * n, Str_cell (strftime (att_timestamp a)));
                     (550, 750 - 20 * n,
                      Str_cell (get_status_display (att_status a)))]
               /\ (38 <= n -> 750 - 20 * n < 0)
  | Export_raised e =>
      e = AttributeError
      /\ exists cid course a,
           course_id = Some cid
           /\ get_course db cid = Some course
           /\ In a (db_attendance db)
           /\ may_export user course a
           /\ matric_number (att_student a) = None
  | _ => True
  end.
Proof.
  destruct (export_attendance matric_number get_full_name course_code course_title
                              strftime db clock user course_id format)
    as [| | | | | course drawn | | e] eqn:F; try exact I.
  - destruct (export_file_records matric_number get_full_name course_code
                course_title strftime db clock user course_id format course)
      as (records & Sorted & Sel & _ & _ & Pdf).
    { right; right. exists drawn. exact F. }
    exists records. split; [exact Sorted |]. split; [exact Sel |].
    intros k a N n.
    destruct (draw_rows_nth matric_number get_full_name strftime records
                750 1 (skipn 7 drawn) k a (Pdf drawn F) N) as (m & M & Five).
    exists m. split; [exact M |]. split; [| lia].
    rewrite Five. subst n. rewrite (Z.add_comm 1). reflexivity.
  - destruct (export_raised_records matric_number get_full_name course_code
                course_title strftime db clock user course_id format e F)
      as (cid & course & records & Id & Found & Sel & Raised_by).
    destruct (draw_rows_raises matric_number get_full_name strftime records
                750 1 e Raised_by) as (E & a & Ia & Null).
    split; [exact E |]. exists cid, course, a.
    apply Sel in Ia. destruct Ia as (Ia & May).
    split; [exact Id |]. split; [exact Found |]. split; [exact Ia |].
    split; [exact May | exact Null].
Qed.

Lemma pdf_rows_heights_witness :
  (exists drawn,
     export_attendance matric_of anonymous code_of title_of unformatted
                       db_marked monday_0900 grace (Some 1) (Some "pdf"%string)
     = Pdf_file csc201 drawn
     /\ exists records,
          StronglySorted not_older records
          /\ (forall a, In a records
                        <-> In a (db_attendance db_marked)
                            /\ may_export grace csc201 a)
          /\ forall k a, nth_error records k = Some a ->
               let n := Z.of_nat k + 1 in
               exists m,
                 matric_of (att_student a) = Some m
                 /\ firstn 5 (skipn (5 * k) (skipn 7 drawn))
                    = [(100, 750 - 20 * n, Int_cell n);
                       (150, 750 - 20 * n, Str_cell m);
                       (300, 750 - 20 * n, Str_cell (anonymous (att_student a)));
                       (450, 750 - 20 * n,
                        Str_cell (unformatted (att_timestamp a)));
                       (550, 750 - 20 * n,
                        Str_cell (get_status_display (att_status a)))]
                 /\ (38 <= n -> 750 - 20 * n < 0))
  /\ export_attendance no_matric anonymous code_of title_of unformatted
                       db_marked monday_0900 grace (Some 1) (Some "pdf"%string)
     = Export_raised AttributeError.
Proof.
  split; [| reflexivity].
  eexists. split; [reflexivity |].
  exact (pdf_rows_heights matric_of anonymous code_of title_of unformatted
           db_marked monday_0900 grace (Some 1) (Some "pdf"%string)).
Defined.

(* ===================================================================== *)
(** ** UserManager *)
(* ===================================================================== *)

Lemma kw_get_app (d : Kwargs) (key : string) (value : PyValue) (k : string) :
  kw_get (d ++ [(key, value)]) k
  = match kw_get d k with
    | Some x => Some x
    | None => if String.eqb key k then Some value else None
    end.
Proof.
  induction d as [| [k' v'] d IH]; simpl; [reflexivity |].
  destruct (String.eqb k' k); [reflexivity | exact IH].
Qed.

Lemma kw_get_setdefault (d : Kwargs) (key : string) (value : PyValue) (k : string) :
  kw_get (kw_setdefault d key value) k
  = match kw_get d k with
    | Some x => Some x
    | None => if String.eqb key k then Some value else None
    end.
Proof.
  unfold kw_setdefault. destruct (kw_get d key) as [x |] eqn:G.
  - destruct (kw_get d k) eqn:G'; [reflexivity |].
    destruct (String.eqb_spec key k) as [-> | _]; [congruence | reflexivity].
  - apply kw_get_app.
Qed.

(** X22. [create_superuser] reaches the model only with a non-empty
    username and with keyword arguments in which [is_staff] and
    [is_superuser] are [True] and [user_type] and [is_active] are present,
    every argument the caller supplied being passed on unchanged; in every
    other case it raises [ValueError] and saves nothing, which happens
    exactly when the username is empty or missing, or [is_staff] or
    [is_superuser] was supplied with a value that is not [True]. *)
Theorem create_superuser_checks
  (Store Instance : Type) (normalize_email : option string -> string)
  (save : option string -> string -> option string -> Kwargs -> Store
          -> (Exception + Instance) * Store)
  (username email password : option string) (extra_fields : Kwargs)
  (store : Store) :
  let result := create_superuser Store Instance normalize_email save
                                 username email password extra_fields store in
  let supplied_not_True key :=
    exists v, kw_get extra_fields key = Some v /\ v <> PyBool true in
  if falsy username
     || is_not_True (match kw_get extra_fields "is_staff" with
                     | Some v => Some v | None => Some (PyBool true) end)
     || is_not_True (match kw_get extra_fields "is_superuser" with
                     | Some v => Some v | None => Some (PyBool true) end)
  then result = (inl ValueError, store)
       /\ (falsy username = true \/ supplied_not_True "is_staff"%string
           \/ supplied_not_True "is_superuser"%string)
  else exists fields,
         result = save username (normalize_email email) password fields store
         /\ kw_get fields "is_staff" = Some (PyBool true)
         /\ kw_get fields "is_superuser" = Some (PyBool true)
         /\ kw_get fields "user_type" <> None
         /\ kw_get fields "is_active" <> None
         /\ forall k v, kw_get extra_fields k = Some v -> kw_get fields k = Some v.
Proof.
  intros result supplied_not_True. subst result supplied_not_True.
  unfold create_superuser, create_user.
  set (fields := kw_setdefault
                   (kw_setdefault
                      (kw_setdefault
                         (kw_setdefault extra_fields "is_staff" (PyBool true))
                         "is_superuser" (PyBool true))
                      "is_active" (PyBool true))
                   "user_type" UserType_ADMIN).
  assert (G : forall k,
             kw_get fields k
             = match kw_get extra_fields k with
               | Some x => Some x
               | None =>
                 if String.eqb "is_staff" k then Some (PyBool true)
                 else if String.eqb "is_superuser" k then Some (PyBool true)
                 else if String.eqb "is_active" k then Some (PyBool true)
                 else if String.eqb "user_type" k then Some UserType_ADMIN
                 else None
               end).
  { intro k. unfold fields. rewrite !kw_get_setdefault.
    destruct (kw_get extra_fields k); [reflexivity |].
    destruct (String.eqb "is_staff" k); [reflexivity |].
    destruct (String.eqb "is_superuser" k); [reflexivity |].
    destruct (String.eqb "is_active" k); reflexivity. }
  rewrite !G. simpl String.eqb. cbv iota.
  pose proof (G "is_staff"%string) as Gstaff.
  pose proof (G "is_superuser"%string) as Gsuper.
  pose proof (G "user_type"%string) as Gtype.
  pose proof (G "is_active"%string) as Gactive.
  simpl String.eqb in Gstaff, Gsuper, Gtype, Gactive. cbv iota in *.
  assert (Passed : forall k v, kw_get extra_fields k = Some v ->
                               kw_get fields k = Some v)
    by (intros k v E; rewrite G, E; reflexivity).
  assert (Type_present : kw_get fields "user_type" <> None)
    by (rewrite Gtype; destruct (kw_get extra_fields "user_type"); discriminate).
  assert (Active_present : kw_get fields "is_active" <> None)
    by (rewrite Gactive; destruct (kw_get extra_fields "is_active"); discriminate).
  destruct (kw_get fields "user_type") as [ut |] eqn:UT; [| contradiction].
  rewrite <- Gtype. clear Gtype G.
  destruct (falsy username) eqn:U;
    destruct (kw_get extra_fields "is_staff") as [[| [|] | |] |] eqn:Staff;
    destruct (kw_get extra_fields "is_superuser") as [[| [|] | |] |] eqn:Super;
    simpl;
    first
      [ split; [reflexivity |];
        first [ left; reflexivity
              | right; left; eexists; split; [reflexivity | discriminate]
              | right; right; eexists; split; [reflexivity | discriminate] ]
      | exists fields; split; [reflexivity |];
        split; [exact Gstaff |]; split; [exact Gsuper |];
        split; [rewrite UT; discriminate |];
        split; [exact Active_present | exact Passed] ].
Qed.
